(** * Laju: the multi-backend database layer

    A shallow embedding of three TypeScript modules of the Laju framework:

    - [knexfile.ts]: the connection configuration resolver (module [Knexfile]);
    - [app/services/DB.ts]: the query-builder service (module [DBService]);
    - [app/services/SQLite.ts]: the native embedded-database service
      (module [SQLite]).

    JavaScript values are modelled as the code uses them: [process.env] is a
    finite map from names to strings, object literals used as dictionaries
    are finite maps looked up the way JavaScript looks up a property (own
    entries first, then the members every object inherits), exceptions are
    an explicit outcome, and module-level mutable state is threaded through
    a small state-and-exception monad. *)

From Stdlib Require Import ZArith Ascii String List Bool Lia.
From stdpp Require Import base option list strings gmap fin_maps.

Local Open Scope string_scope.
Local Open Scope Z_scope.

(** ** JavaScript basics *)

Module JS.

(** [process.env]: every value is a string, a missing name is [undefined]. *)
Abbreviation Env := (gmap string string).

(** Truthiness of [process.env.X]: [undefined] and the empty string are falsy. *)
Definition truthy (v : option string) : bool :=
  match v with
  | Some s => negb (String.eqb s "")
  | None => false
  end.

(** [process.env.X || d]. *)
Definition or_else (v : option string) (d : string) : string :=
  if truthy v then default d v else d.

(** Template-literal rendering of a possibly undefined string. *)
Definition render (v : option string) : string := default "undefined" v.

(** Names that every plain object ([{}] or an object literal) inherits
    from [Object.prototype]; each is bound to a function, except
    [__proto__], which reads as the prototype object itself.  None of them
    is [undefined], and all of them are truthy. *)
Definition Object_prototype_keys : list string :=
  [ "constructor"; "__defineGetter__"; "__defineSetter__"; "hasOwnProperty";
    "__lookupGetter__"; "__lookupSetter__"; "isPrototypeOf";
    "propertyIsEnumerable"; "toString"; "valueOf"; "__proto__";
    "toLocaleString" ].

Definition inherited (k : string) : bool :=
  existsb (String.eqb k) Object_prototype_keys.

(** The result of a property read [o[k]] on a plain object whose own
    properties are the finite map [o]. *)
Inductive member (A : Type) : Type :=
| Own (a : A)          (* an own property *)
| Inherited            (* a member of Object.prototype: truthy, not an [A] *)
| Undefined.           (* no such property *)
Global Arguments Own {A} a.
Global Arguments Inherited {A}.
Global Arguments Undefined {A}.

Definition get {A : Type} (o : gmap string A) (k : string) : member A :=
  match o !! k with
  | Some a => Own a
  | None => if inherited k then Inherited else Undefined
  end.

(** [o[k]] with [k] possibly [undefined]: the key is then the text
    "undefined". *)
Definition get_opt {A : Type} (o : gmap string A) (k : option string) : member A :=
  get o (render k).

(** Exceptions raised by the modelled code or by a driver. *)
Inductive Exn : Type :=
| Error (msg : string)         (* new Error(msg) *)
| TypeError (msg : string)     (* raised by the language itself *)
| DriverError (msg : string).  (* raised inside an external library *)

Inductive outcome (A : Type) : Type :=
| Ok (a : A)
| Throw (e : Exn).
Global Arguments Ok {A} a.
Global Arguments Throw {A} e.

(** State and exceptions: a computation over a store [S]. *)
Definition M (S A : Type) : Type := S -> S * outcome A.

Definition ret {S A} (a : A) : M S A := fun s => (s, Ok a).
Definition throw {S A} (e : Exn) : M S A := fun s => (s, Throw e).
Definition bind {S A B} (c : M S A) (k : A -> M S B) : M S B :=
  fun s => match c s with
           | (s', Ok a) => k a s'
           | (s', Throw e) => (s', Throw e)
           end.
(** [try { c } catch (e) { h e }]. *)
Definition try_catch {S A} (c : M S A) (h : Exn -> M S A) : M S A :=
  fun s => match c s with
           | (s', Ok a) => (s', Ok a)
           | (s', Throw e) => h e s'
           end.
Definition modify {S} (f : S -> S) : M S unit := fun s => (f s, Ok tt).
Definition gets {S A} (f : S -> A) : M S A := fun s => (s, Ok (f s)).

End JS.

Declare Scope js_scope.
Delimit Scope js_scope with js.
Notation "x <- c ;; k" := (JS.bind c (fun x => k))
  (at level 100, c at next level, right associativity) : js_scope.
Notation "c ;; k" := (JS.bind c (fun _ => k))
  (at level 100, right associativity) : js_scope.

Import JS.

(** ** knexfile.ts: the connection configuration resolver *)

Module Knexfile.

(** [Knex.StaticConnectionConfig | string]: a connection string, the
    structured parameters, or the file of the embedded engine. *)
Inductive Connection (Number : Type) : Type :=
| ConnString (url : string)
| ConnParams (host : string) (port : Number) (user password database : string)
| ConnFile (filename : string).
Global Arguments ConnString {Number} url.
Global Arguments ConnParams {Number} host port user password database.
Global Arguments ConnFile {Number} filename.

(** [Knex.PoolConfig], with the four members the resolver sets. *)
Record PoolConfig (Number : Type) : Type := mkPool {
  pool_min : Number;
  pool_max : Number;
  acquireTimeoutMillis : option Number;
  idleTimeoutMillis : option Number
}.
Global Arguments mkPool {Number}.
Global Arguments pool_min {Number}.
Global Arguments pool_max {Number}.
Global Arguments acquireTimeoutMillis {Number}.
Global Arguments idleTimeoutMillis {Number}.

(** [Knex.Config]: the descriptor of one stage. *)
Record KnexConfig (Number : Type) : Type := mkConfig {
  client : string;
  connection : Connection Number;
  pool : option (PoolConfig Number);
  useNullAsDefault : bool;
  migrations_directory : string
}.
Global Arguments mkConfig {Number}.
Global Arguments client {Number}.
Global Arguments connection {Number}.
Global Arguments pool {Number}.
Global Arguments useNullAsDefault {Number}.
Global Arguments migrations_directory {Number}.

Section Resolver.
(** JavaScript numbers are kept abstract: [num z] is the numeric
    literal [z] and [parseInt] is the host's builtin, whose result the
    resolver stores as it is. *)
Context {Number : Type} (num : Z -> Number) (parseInt : string -> Number).

(** [const DB_CLIENT = process.env.DB_CLIENT || "better-sqlite3"],
    evaluated when the module is loaded. *)
Definition DB_CLIENT (env : Env) : string :=
  or_else (env !! "DB_CLIENT") "better-sqlite3".

(** [buildConnectionConfig]: [token] is the module constant [DB_CLIENT],
    [env] is [process.env] at the time of the call. *)
Definition buildConnectionConfig (token : string) (env : Env) : Connection Number :=
  if String.eqb token "pg" || String.eqb token "postgresql" then
    if truthy (env !! "DATABASE_URL") then
      ConnString (default "" (env !! "DATABASE_URL"))
    else
      ConnParams (or_else (env !! "DB_HOST") "127.0.0.1")
                 (parseInt (or_else (env !! "DB_PORT") "5432"))
                 (or_else (env !! "DB_USER") "postgres")
                 (or_else (env !! "DB_PASSWORD") "")
                 (or_else (env !! "DB_NAME") "laju")
  else if String.eqb token "mysql" || String.eqb token "mysql2" then
    ConnParams (or_else (env !! "DB_HOST") "127.0.0.1")
               (parseInt (or_else (env !! "DB_PORT") "3306"))
               (or_else (env !! "DB_USER") "root")
               (or_else (env !! "DB_PASSWORD") "")
               (or_else (env !! "DB_NAME") "laju")
  else
    (* case "better-sqlite3": case "sqlite3": default: *)
    ConnFile (or_else (env !! "DB_FILENAME") "./data/dev.sqlite3").

(** [buildPoolConfig]. *)
Definition buildPoolConfig (token : string) (env : Env) : PoolConfig Number :=
  if String.eqb token "better-sqlite3" || String.eqb token "sqlite3" then
    mkPool (num 1) (num 1) None None
  else
    mkPool (parseInt (or_else (env !! "DB_POOL_MIN") "0"))
           (parseInt (or_else (env !! "DB_POOL_MAX") "10"))
           (Some (num 30000)) (Some (num 30000)).

(** [isSQLite]. *)
Definition isSQLite (token : string) : bool :=
  String.eqb token "better-sqlite3" || String.eqb token "sqlite3".

(** [getClientName]. *)
Definition getClientName (token : string) : string :=
  if String.eqb token "pg" || String.eqb token "postgresql" then "pg"
  else if String.eqb token "mysql" || String.eqb token "mysql2" then "mysql2"
  else "better-sqlite3".

(** The members of the [config] object literal.  [development] and
    [production] are written out twice in the source, with the same
    calls. *)
Definition development (env : Env) : KnexConfig Number :=
  {| client := getClientName (DB_CLIENT env);
     connection := buildConnectionConfig (DB_CLIENT env) env;
     pool := Some (buildPoolConfig (DB_CLIENT env) env);
     useNullAsDefault := isSQLite (DB_CLIENT env);
     migrations_directory := "./migrations" |}.

Definition production (env : Env) : KnexConfig Number :=
  {| client := getClientName (DB_CLIENT env);
     connection := buildConnectionConfig (DB_CLIENT env) env;
     pool := Some (buildPoolConfig (DB_CLIENT env) env);
     useNullAsDefault := isSQLite (DB_CLIENT env);
     migrations_directory := "./migrations" |}.

Definition test : KnexConfig Number :=
  {| client := "better-sqlite3";
     connection := ConnFile "./data/test.sqlite3";
     pool := None;
     useNullAsDefault := true;
     migrations_directory := "./migrations" |}.

(** [const config = { development: ..., production: ..., test: ... }],
    built once, from [process.env] as it is when the module is loaded. *)
Definition config (env : Env) : gmap string (KnexConfig Number) :=
  <["development" := development env]>
    (<["production" := production env]>
       (<["test" := test]> ∅)).

End Resolver.

(** Two expressions that both services apply to a looked-up descriptor. *)

(** [d?.client]: inherited members of the [config] object have no
    [client] property. *)
Definition client_of {Number : Type} (d : member (KnexConfig Number)) : option string :=
  match d with
  | Own c => Some (client c)
  | Inherited | Undefined => None
  end.

(** [c === 'better-sqlite3' || c === 'sqlite3'] *)
Definition is_sqlite_client (c : option string) : bool :=
  match c with
  | Some s => String.eqb s "better-sqlite3" || String.eqb s "sqlite3"
  | None => false
  end.

End Knexfile.

(** ** app/services/DB.ts: the query-builder service *)

Module DBService.

(** The four statements of [applyDatabaseOptimizations], in source order. *)
Definition PRAGMAS : list string :=
  [ "PRAGMA journal_mode = WAL";
    "PRAGMA synchronous = NORMAL";
    "PRAGMA foreign_keys = ON";
    "PRAGMA busy_timeout = 5000" ].

Section Service.
Context {Number : Type} (num : Z -> Number) (parseInt : string -> Number).

(** The query-builder library is external.  [Knex] is the type of its
    instances, [DBInstance] its constructor (which may throw on a
    malformed descriptor) and [raw_throws i h q] tells whether
    [i.raw(q)] throws, given the statements [h] issued so far. *)
Context {Knex : Type}.
Variable DBInstance : member (Knexfile.KnexConfig Number) -> outcome Knex.
Variable raw_throws : Knex -> list string -> string -> option Exn.

(** What the module can see and change: the current [process.env], the
    imported [config] object, and, as observations, the statements
    handed to [raw] and the lines written by [console.warn]. *)
Record World : Type := mkWorld {
  env : Env;
  knexfile : gmap string (Knexfile.KnexConfig Number);
  raws : list string;
  warnings : list (string * Exn)
}.

(** The process starts: [knexfile.ts] is evaluated once. *)
Definition boot (e : Env) : World :=
  {| env := e; knexfile := Knexfile.config num parseInt e;
     raws := []; warnings := [] |}.

(** [process.env[k] = v], at any later time. *)
Definition setenv (k v : string) (w : World) : World :=
  {| env := <[k := v]> (env w); knexfile := knexfile w;
     raws := raws w; warnings := warnings w |}.

(** [config[stage]]: the descriptor a request for [stage] obtains. *)
Definition descriptor (w : World) (stage : option string)
  : member (Knexfile.KnexConfig Number) :=
  get_opt (knexfile w) stage.

(** [instance.raw(sql)] *)
Definition raw (instance : Knex) (sql : string) : M World unit :=
  fun w =>
    let w' := {| env := env w; knexfile := knexfile w;
                 raws := raws w ++ [sql]; warnings := warnings w |} in
    match raw_throws instance (raws w) sql with
    | Some e => (w', Throw e)
    | None => (w', Ok tt)
    end.

(** [console.warn(msg, err)] *)
Definition console_warn (msg : string) (err : Exn) : M World unit :=
  modify (fun w => {| env := env w; knexfile := knexfile w; raws := raws w;
                      warnings := warnings w ++ [(msg, err)] |}).

(** [applyDatabaseOptimizations(instance)] *)
Definition applyDatabaseOptimizations (instance : Knex) : M World unit :=
  (connectionConfig <- gets (fun w => descriptor w (env w !! "DB_CONNECTION")) ;;
   if Knexfile.is_sqlite_client (Knexfile.client_of connectionConfig) then
     try_catch
       (raw instance "PRAGMA journal_mode = WAL" ;;
        raw instance "PRAGMA synchronous = NORMAL" ;;
        raw instance "PRAGMA foreign_keys = ON" ;;
        raw instance "PRAGMA busy_timeout = 5000")
       (fun err => console_warn "Failed to apply SQLite PRAGMA:" err)
   else ret tt)%js.

(** [new]: [DBInstance(d)] lifted to the monad. *)
Definition new_instance (d : member (Knexfile.KnexConfig Number)) : M World Knex :=
  fun w => (w, DBInstance d).

(** Module initialisation: the default instance. *)
Definition DB : M World Knex :=
  (d <- gets (fun w => descriptor w (env w !! "DB_CONNECTION")) ;;
   instance <- new_instance d ;;
   applyDatabaseOptimizations instance ;;
   ret instance)%js.

(** [DB.connection(stage)] *)
Definition connection (stage : string) : M World Knex :=
  (d <- gets (fun w => descriptor w (Some stage)) ;;
   instance <- new_instance d ;;
   applyDatabaseOptimizations instance ;;
   ret instance)%js.

(** What can happen after the process has started: a variable is
    set, or a client asks for a connection. *)
Inductive Event : Type :=
| SetEnv (k v : string)
| Connect (stage : string).

Definition step (w : World) (ev : Event) : World :=
  match ev with
  | SetEnv k v => setenv k v w
  | Connect stage => fst (connection stage w)
  end.

Definition steps (evs : list Event) (w : World) : World :=
  fold_left step evs w.

(** The statements [applyDatabaseOptimizations] hands to [raw] when it
    works through the list [l] after the history [h]: it stops after
    the first one that throws. *)
Fixpoint attempted (instance : Knex) (h l : list string) : list string :=
  match l with
  | [] => []
  | q :: l' =>
      q :: match raw_throws instance h q with
           | Some _ => []
           | None => attempted instance (h ++ [q]) l'
           end
  end.

(** The exception that ends the walk, if any. *)
Fixpoint first_failure (instance : Knex) (h l : list string) : option Exn :=
  match l with
  | [] => None
  | q :: l' =>
      match raw_throws instance h q with
      | Some e => Some e
      | None => first_failure instance (h ++ [q]) l'
      end
  end.

(** The condition of [applyDatabaseOptimizations]: the client of the stage
    that [DB_CONNECTION] names at the time of the call. *)
Definition active_is_sqlite (w : World) : bool :=
  Knexfile.is_sqlite_client
    (Knexfile.client_of (descriptor w (env w !! "DB_CONNECTION"))).

End Service.

(** The warning written when the guarded block is left by an exception. *)
Definition warning_of (failure : option Exn) : list (string * Exn) :=
  match failure with
  | Some e => [("Failed to apply SQLite PRAGMA:", e)]
  | None => []
  end.

End DBService.

(** ** app/services/SQLite.ts: the native embedded-database service *)

Module SQLite.

(** The [params] argument of [get], [all] and [run] as the code tells
    its shapes apart: omitted (the default [[]] applies), an array, or
    any other object, given by its own enumerable properties in
    enumeration order. *)
Inductive Params (Value : Type) : Type :=
| PMissing
| PArray (l : list Value)
| PObject (props : list (string * Value)).
Global Arguments PMissing {Value}.
Global Arguments PArray {Value} l.
Global Arguments PObject {Value} props.

Inductive LogLine : Type :=
| LogInfo (msg : string)                  (* console.info(msg) *)
| LogError (label : string) (e : Exn).    (* console.error(label, e) *)

(** The state the module closes over: the database behind [nativeDb],
    the [statementCache] object, and, as observations, the texts handed
    to [nativeDb.prepare] and the console. *)
Record World (Db Stmt : Type) : Type := mkWorld {
  nativeDb : Db;
  statementCache : gmap string Stmt;
  prepared : list string;
  console : list LogLine
}.
Global Arguments mkWorld {Db Stmt}.
Global Arguments nativeDb {Db Stmt}.
Global Arguments statementCache {Db Stmt}.
Global Arguments prepared {Db Stmt}.
Global Arguments console {Db Stmt}.

(** The driver (better-sqlite3) is external: the service is written
    against this interface.  Every operation may throw. *)
Class NativeDriver (Db Stmt Value Row RunResult : Type) : Type := {
  (* new Database(filename) *)
  db_open : string -> Db -> Db * outcome unit;
  (* nativeDb.pragma(text) *)
  db_pragma : string -> Db -> Db * outcome unit;
  (* nativeDb.prepare(sql) *)
  db_prepare : string -> Db -> outcome Stmt;
  (* stmt.get(...parameters), stmt.all(...parameters), stmt.run(...parameters) *)
  stmt_get : Stmt -> list Value -> Db -> Db * outcome (option Row);
  stmt_all : Stmt -> list Value -> Db -> Db * outcome (list Row);
  stmt_run : Stmt -> list Value -> Db -> Db * outcome RunResult;
  (* nativeDb.transaction(f)() *)
  native_transaction : forall T : Type, M (World Db Stmt) T -> M (World Db Stmt) T
}.

(** The service object: the real one, or the stub with its message. *)
Inductive SQLiteServiceType : Type :=
| RealService
| StubService (errorMsg : string).

Definition isAvailable (svc : SQLiteServiceType) : bool :=
  match svc with
  | RealService => true
  | StubService _ => false
  end.

Inductive Op : Type := OpGet | OpAll | OpRun.

Record Call (Value : Type) : Type := mkCall {
  call_op : Op;
  call_sql : string;
  call_params : Params Value
}.
Global Arguments mkCall {Value}.
Global Arguments call_op {Value}.
Global Arguments call_sql {Value}.
Global Arguments call_params {Value}.

Section Native.
Context {Number Db Stmt Value Row RunResult : Type}.
Context {driver : NativeDriver Db Stmt Value Row RunResult}.

Local Abbreviation W := (World Db Stmt).

Definition set_db (d : Db) (w : W) : W :=
  {| nativeDb := d; statementCache := statementCache w;
     prepared := prepared w; console := console w |}.

Definition log (l : LogLine) : M W unit :=
  modify (fun w => {| nativeDb := nativeDb w; statementCache := statementCache w;
                      prepared := prepared w; console := console w ++ [l] |}).

(** A driver call on the open database. *)
Definition on_db {A : Type} (op : Db -> Db * outcome A) : M W A :=
  fun w => let '(d, r) := op (nativeDb w) in (set_db d w, r).

(** [nativeDb.prepare(sql)] *)
Definition prepare (sql : string) : M W Stmt :=
  fun w =>
    ({| nativeDb := nativeDb w; statementCache := statementCache w;
        prepared := prepared w ++ [sql]; console := console w |},
     db_prepare sql (nativeDb w)).

(** [statementCache[sql] = stmt] *)
Definition store (sql : string) (stmt : Stmt) : M W unit :=
  modify (fun w => {| nativeDb := nativeDb w;
                      statementCache := <[sql := stmt]> (statementCache w);
                      prepared := prepared w; console := console w |}).

(** [createStubService] *)
Definition createStubService (clientType : option string) : SQLiteServiceType :=
  StubService ("SQLite service is not available with " +:+ render clientType
               +:+ " client. Use DB service instead.").

(** The guard of [createSQLiteService]: the file name, when [dbConfig]
    is an object whose [connection] is an object with a [filename]. *)
Definition filename_of (dbConfig : member (Knexfile.KnexConfig Number)) : option string :=
  match dbConfig with
  | Own c =>
      match Knexfile.connection c with
      | Knexfile.ConnFile f => Some f
      | Knexfile.ConnString _ | Knexfile.ConnParams _ _ _ _ _ => None
      end
  | Inherited | Undefined => None
  end.

(** [createSQLiteService] *)
Definition createSQLiteService (dbConfig : member (Knexfile.KnexConfig Number))
    (connectionType : string) : M W SQLiteServiceType :=
  match filename_of dbConfig with
  | None =>
      throw (Error ("Invalid database configuration for connection: " +:+ connectionType))
  | Some filename =>
      (on_db (db_open filename) ;;
       on_db (db_pragma "journal_mode = WAL") ;;
       on_db (db_pragma "synchronous = NORMAL") ;;
       on_db (db_pragma "foreign_keys = ON") ;;
       on_db (db_pragma "busy_timeout = 5000") ;;
       modify (fun w => {| nativeDb := nativeDb w; statementCache := ∅;
                           prepared := prepared w; console := console w |}) ;;
       ret RealService)%js
  end.

(** Module initialisation, given the imported [config] object and
    [process.env] at that time. *)
Definition connectionType (env : Env) : string :=
  or_else (env !! "DB_CONNECTION") "development".

Definition clientType (config : gmap string (Knexfile.KnexConfig Number)) (env : Env)
  : option string :=
  Knexfile.client_of (JS.get config (connectionType env)).

Definition SQLiteService (config : gmap string (Knexfile.KnexConfig Number)) (env : Env)
  : M W SQLiteServiceType :=
  if Knexfile.is_sqlite_client (clientType config env) then
    createSQLiteService (JS.get config (connectionType env)) (connectionType env)
  else
    (log (LogInfo ("SQLite native service is disabled (current client: "
                   +:+ render (clientType config env)
                   +:+ "). Use DB service for database operations.")) ;;
     ret (createStubService (clientType config env)))%js.

(** [Array.isArray(params) ? params : Object.values(params)] *)
Definition parameters (params : Params Value) : list Value :=
  match params with
  | PMissing => []
  | PArray l => l
  | PObject props => map snd props
  end.

(** [let stmt = statementCache[sql]; if (!stmt) { stmt = prepare(sql);
    statementCache[sql] = stmt; }].  An inherited member is truthy, so
    it is taken for the statement. *)
Definition statement (sql : string) : M W (member Stmt) :=
  (cached <- gets (fun w => JS.get (statementCache w) sql) ;;
   match cached with
   | Own stmt => ret (Own stmt)
   | Inherited => ret Inherited
   | Undefined =>
       stmt <- prepare sql ;;
       store sql stmt ;;
       ret (Own stmt)
   end)%js.

(** [stmt.method(...parameters)] *)
Definition invoke {A : Type} (method : string)
    (op : Stmt -> list Value -> Db -> Db * outcome A)
    (stmt : member Stmt) (ps : list Value) : M W A :=
  match stmt with
  | Own s => on_db (op s ps)
  | Inherited | Undefined =>
      throw (TypeError ("stmt." +:+ method +:+ " is not a function"))
  end.

(** [catch (error) { console.error('SQLite <method> error:', error);
    throw error; }] *)
Definition report {A : Type} (method : string) (error : Exn) : M W A :=
  (log (LogError ("SQLite " +:+ method +:+ " error:") error) ;;
   throw error)%js.

(** The common body of [get], [all] and [run] of the real service. *)
Definition query {A : Type} (method : string)
    (op : Stmt -> list Value -> Db -> Db * outcome A)
    (sql : string) (params : Params Value) : M W A :=
  try_catch
    (let ps := parameters params in
     stmt <- statement sql ;;
     invoke method op stmt ps)%js
    (report method).

Definition get (svc : SQLiteServiceType) (sql : string) (params : Params Value)
  : M W (option Row) :=
  match svc with
  | RealService => query "get" stmt_get sql params
  | StubService errorMsg => throw (Error errorMsg)
  end.

Definition all (svc : SQLiteServiceType) (sql : string) (params : Params Value)
  : M W (list Row) :=
  match svc with
  | RealService => query "all" stmt_all sql params
  | StubService errorMsg => throw (Error errorMsg)
  end.

Definition run (svc : SQLiteServiceType) (sql : string) (params : Params Value)
  : M W RunResult :=
  match svc with
  | RealService => query "run" stmt_run sql params
  | StubService errorMsg => throw (Error errorMsg)
  end.

(** [transaction(fn)]: [service] is [this], the service itself. *)
Definition transaction {T : Type} (svc : SQLiteServiceType)
    (fn : SQLiteServiceType -> M W T) : M W T :=
  match svc with
  | RealService =>
      let service := RealService in
      native_transaction T (fn service)
  | StubService errorMsg => throw (Error errorMsg)
  end.

(** [getDatabase()]: the open database, or [null]. *)
Definition getDatabase (svc : SQLiteServiceType) : M W (option Db) :=
  match svc with
  | RealService => gets (fun w => Some (nativeDb w))
  | StubService _ => ret None
  end.

(** The state in which a statement compiled for the text [sql] is
    first run: compiled once more, stored under [sql]. *)
Definition compiled (sql : string) (s : Stmt) (w : W) : W :=
  {| nativeDb := nativeDb w;
     statementCache := <[sql := s]> (statementCache w);
     prepared := prepared w ++ [sql];
     console := console w |}.

(** A client's call of one of the three query operations, and the
    state it leaves behind, whether it returns or throws. *)
Definition perform (svc : SQLiteServiceType) (c : Call Value) (w : W) : W :=
  match call_op c with
  | OpGet => fst (get svc (call_sql c) (call_params c) w)
  | OpAll => fst (all svc (call_sql c) (call_params c) w)
  | OpRun => fst (run svc (call_sql c) (call_params c) w)
  end.

(** A sequence of calls, one after the other. *)
Definition perform_all (svc : SQLiteServiceType) (cs : list (Call Value)) (w : W) : W :=
  fold_left (fun w c => perform svc c w) cs w.

(** What the driver documents for [nativeDb.transaction(f)()]: the
    function runs between BEGIN and COMMIT and its result is returned;
    if it throws, the database is rolled back to its state at BEGIN
    and the exception is thrown again.  Only the database is rolled
    back, not what the function did to the program's own state. *)
Class TransactionalDriver : Prop := {
  transaction_commits :
    forall (T : Type) (f : M W T) (w w' : W) (v : T),
      f w = (w', Ok v) -> native_transaction T f w = (w', Ok v);
  transaction_rolls_back :
    forall (T : Type) (f : M W T) (w w' : W) (e : Exn),
      f w = (w', Throw e) ->
      native_transaction T f w = (set_db (nativeDb w) w', Throw e)
}.

End Native.

End SQLite.

(** ** Reference instances

    Small executable stand-ins for the external parts (the [parseInt]
    builtin, the query builder, the native driver), used to run the
    definitions above on concrete inputs. *)

Module Reference.

(** Numbers: an integer, or [None] for NaN. *)
Definition num (z : Z) : option Z := Some z.

Definition digit (c : Ascii.ascii) : option Z :=
  let n := Z.of_nat (Ascii.nat_of_ascii c) in
  if (48 <=? n) && (n <=? 57) then Some (n - 48) else None.

(** The value of the longest prefix of decimal digits, started from
    the accumulator [acc] ([None]: no digit seen yet). *)
Fixpoint digits (s : string) (acc : option Z) : option Z :=
  match s with
  | EmptyString => acc
  | String c s' =>
      match digit c with
      | Some d => digits s' (Some (10 * default 0 acc + d))
      | None => acc
      end
  end.

(** [parseInt] on plain decimal numerals: an optional sign, then digits;
    NaN when there is no digit. *)
Definition parseInt (s : string) : option Z :=
  match s with
  | String "-"%char s' => Z.opp <$> digits s' None
  | String "+"%char s' => digits s' None
  | _ => digits s None
  end.

(** A query builder whose instances remember their descriptor and whose
    [raw] only records the statement and never throws. *)
Definition Knex : Type := member (Knexfile.KnexConfig (option Z)).
Definition DBInstance (d : member (Knexfile.KnexConfig (option Z))) : outcome Knex := Ok d.
Definition raw_ok (i : Knex) (h : list string) (q : string) : option Exn := None.

(** A one-table database: the table [t] holds integers. *)
Inductive Stmt : Type := Insert | SelectAll | DeleteAll.

Record RunResult : Type := mkRun { changes : Z; lastInsertRowid : Z }.

Definition Db : Type := list Z.

Definition ref_prepare (sql : string) (d : Db) : outcome Stmt :=
  if String.eqb sql "INSERT INTO t VALUES (?)" then Ok Insert
  else if String.eqb sql "SELECT v FROM t" then Ok SelectAll
  else if String.eqb sql "DELETE FROM t" then Ok DeleteAll
  else Throw (DriverError "SqliteError: syntax error").

Definition arity_error {A : Type} : outcome A :=
  Throw (DriverError "RangeError: wrong number of parameter values").

Definition not_a_query {A : Type} : outcome A :=
  Throw (DriverError "TypeError: This statement does not return data").

Definition ref_run (st : Stmt) (ps : list Z) (d : Db) : Db * outcome RunResult :=
  match st, ps with
  | Insert, [v] => ((d ++ [v])%list, Ok (mkRun 1 (Z.of_nat (length d) + 1)))
  | DeleteAll, [] => ([], Ok (mkRun (Z.of_nat (length d)) 0))
  | SelectAll, [] => (d, Ok (mkRun 0 0))
  | _, _ => (d, arity_error)
  end.

Definition ref_get (st : Stmt) (ps : list Z) (d : Db) : Db * outcome (option Z) :=
  match st, ps with
  | SelectAll, [] => (d, Ok (head d))
  | SelectAll, _ => (d, arity_error)
  | _, _ => (d, not_a_query)
  end.

Definition ref_all (st : Stmt) (ps : list Z) (d : Db) : Db * outcome (list Z) :=
  match st, ps with
  | SelectAll, [] => (d, Ok d)
  | SelectAll, _ => (d, arity_error)
  | _, _ => (d, not_a_query)
  end.

(** BEGIN; run the function; COMMIT when it returns, ROLLBACK and
    rethrow when it throws. *)
Definition ref_transaction (T : Type) (f : M (SQLite.World Db Stmt) T)
  : M (SQLite.World Db Stmt) T :=
  fun w =>
    match f w with
    | (w', Ok v) => (w', Ok v)
    | (w', Throw e) => (SQLite.set_db (SQLite.nativeDb w) w', Throw e)
    end.

#[global] Instance driver : SQLite.NativeDriver Db Stmt Z Z RunResult := {|
  SQLite.db_open := fun filename d => (d, Ok tt);
  SQLite.db_pragma := fun text d => (d, Ok tt);
  SQLite.db_prepare := ref_prepare;
  SQLite.stmt_get := ref_get;
  SQLite.stmt_all := ref_all;
  SQLite.stmt_run := ref_run;
  SQLite.native_transaction := ref_transaction
|}.

(** The environment of a postgres deployment with a larger pool. *)
Definition env_pg : Env := <["DB_CLIENT" := "pg"]> (<["DB_POOL_MAX" := "20"]> ∅).

(** A postgres deployment whose active stage is the test stage, and one
    whose active stage is development. *)
Definition env_pg_test : Env :=
  <["DB_CLIENT" := "pg"]> (<["DB_CONNECTION" := "test"]> ∅).
Definition env_pg_dev : Env :=
  <["DB_CLIENT" := "pg"]> (<["DB_CONNECTION" := "development"]> ∅).

(** The state of a process before the service module is loaded. *)
Definition fresh : SQLite.World Db Stmt :=
  {| SQLite.nativeDb := []; SQLite.statementCache := ∅;
     SQLite.prepared := []; SQLite.console := [] |}.

End Reference.


(** ** The specification's reading of the resolver

    Definitions that follow the words of the specification, to compare
    the code with. *)

Module Spec.

(** "exactly one of {embedded, postgres, mysql}" *)
Inductive Backend : Type := Embedded | Postgres | Mysql.

(** "{pg, postgresql} -> postgres, {mysql, mysql2} -> mysql,
    {better-sqlite3, sqlite3} or unrecognized/absent -> embedded" *)
Definition backend_of_token (token : option string) : Backend :=
  match token with
  | None => Embedded
  | Some t =>
      if bool_decide (t ∈ ["pg"; "postgresql"]) then Postgres
      else if bool_decide (t ∈ ["mysql"; "mysql2"]) then Mysql
      else Embedded
  end.

(** The client identifier of each backend. *)
Definition client_name (b : Backend) : string :=
  match b with
  | Embedded => "better-sqlite3"
  | Postgres => "pg"
  | Mysql => "mysql2"
  end.

(** The connection parameters of a descriptor have the shape of its
    backend: a file for the embedded engine, a connection string or the
    structured parameters for postgres, the structured parameters for
    mysql. *)
Definition connection_fits {Number : Type} (b : Backend)
    (c : Knexfile.Connection Number) : bool :=
  match b, c with
  | Embedded, Knexfile.ConnFile _ => true
  | Postgres, Knexfile.ConnString _ => true
  | Postgres, Knexfile.ConnParams _ _ _ _ _ => true
  | Mysql, Knexfile.ConnParams _ _ _ _ _ => true
  | _, _ => false
  end.

(** The claim on pool bounds, as the specification words it: a stage
    whose client is the embedded engine has min = 1 and max = 1; a
    postgres or mysql stage has the bounds of [DB_POOL_MIN] and
    [DB_POOL_MAX] (defaults 0 and 10) and both timeouts at 30000. *)
Definition pool_as_specified {Number : Type} (num : Z -> Number)
    (parseInt : string -> Number) (env : Env)
    (d : Knexfile.KnexConfig Number) : Prop :=
  (Knexfile.client d = "better-sqlite3" ->
     exists p, Knexfile.pool d = Some p /\
               Knexfile.pool_min p = num 1 /\ Knexfile.pool_max p = num 1) /\
  (Knexfile.client d = "pg" \/ Knexfile.client d = "mysql2" ->
     exists p, Knexfile.pool d = Some p /\
               Knexfile.pool_min p = parseInt (or_else (env !! "DB_POOL_MIN") "0") /\
               Knexfile.pool_max p = parseInt (or_else (env !! "DB_POOL_MAX") "10") /\
               Knexfile.acquireTimeoutMillis p = Some (num 30000) /\
               Knexfile.idleTimeoutMillis p = Some (num 30000)).

End Spec.

(** ** The client entry script: the page resolver of the Inertia app *)

Module Inertia.

(** What [document.body.innerHTML] is replaced with in development mode:
    one of the two HTML panels of the source, given by the values
    interpolated into its template. *)
Inductive Panel : Type :=
| NotFoundPanel (name pagePath : string) (available : list string)
| LoadErrorPanel (name : string) (error : Exn).

Inductive LogLine : Type :=
| Line (msg : string)                            (* console.error(msg) *)
| LineKeys (msg : string) (keys : list string)   (* console.error(msg, Object.keys(pages)) *)
| LineError (msg : string) (error : Exn).        (* console.error(msg, error) *)

(** The part of the browser the resolver writes to; [body = None] means
    that the document body is as the server rendered it. *)
Record Browser : Type := mkBrowser {
  console : list LogLine;
  body : option Panel
}.

Definition console_error (l : LogLine) : M Browser unit :=
  modify (fun b => {| console := console b ++ [l]; body := body b |}).

Definition set_body (p : Panel) : M Browser unit :=
  modify (fun b => {| console := console b; body := Some p |}).

(** [`./Pages/${name}.svelte`] *)
Definition pagePath (name : string) : string :=
  "./Pages/" +:+ name +:+ ".svelte".

Section Resolve.
Context {Page : Type}.

(** [import.meta.env.DEV] *)
Variable DEV : bool.

(** The own properties of the object [import.meta.glob] returns, in
    enumeration order; each value is a loader, given by what calling and
    awaiting it yields. *)
Fixpoint own (pages : list (string * outcome Page)) (k : string)
  : option (outcome Page) :=
  match pages with
  | [] => None
  | (k', loader) :: pages' => if String.eqb k' k then Some loader else own pages' k
  end.

(** [resolve(name)].  [pages[pagePath]] is read among the own
    properties: a path that starts with "./Pages/" is never the name of
    an inherited member. *)
Definition resolve (pages : list (string * outcome Page)) (name : string)
  : M Browser Page :=
  match own pages (pagePath name) with
  | None =>
      (console_error (Line ("[Inertia] Page not found: " +:+ name)) ;;
       console_error (Line ("[Inertia] Looking for: " +:+ pagePath name)) ;;
       console_error (LineKeys "[Inertia] Available pages:" (map fst pages)) ;;
       (if DEV
        then set_body (NotFoundPanel name (pagePath name) (map fst pages))
        else ret tt) ;;
       throw (Error ("Page not found: " +:+ name)))%js
  | Some loader =>
      try_catch
        (fun b => (b, loader))
        (fun error =>
           console_error (LineError ("[Inertia] Error loading page: " +:+ name) error) ;;
           (if DEV then set_body (LoadErrorPanel name error) else ret tt) ;;
           throw error)%js
  end.

End Resolve.

End Inertia.

(** ** Notions used to state the properties *)

Module Notions.

(** The environment variables that [knexfile.ts] reads. *)
Definition consumed : list string :=
  [ "DB_CLIENT"; "DATABASE_URL"; "DB_HOST"; "DB_PORT"; "DB_USER";
    "DB_PASSWORD"; "DB_NAME"; "DB_FILENAME"; "DB_POOL_MIN"; "DB_POOL_MAX" ].

(** The names of the stages of [config]. *)
Definition stages : list string := [ "development"; "production"; "test" ].

Section Native.
Context {Db Stmt Value Row RunResult : Type}.
Context {driver : SQLite.NativeDriver Db Stmt Value Row RunResult}.

(** The driver calls of [createSQLiteService], in source order. *)
Definition startup (filename : string) : list (Db -> Db * outcome unit) :=
  [ SQLite.db_open filename;
    SQLite.db_pragma "journal_mode = WAL";
    SQLite.db_pragma "synchronous = NORMAL";
    SQLite.db_pragma "foreign_keys = ON";
    SQLite.db_pragma "busy_timeout = 5000" ].

(** Driver calls one after the other, up to the first one that throws. *)
Fixpoint run_all (ops : list (Db -> Db * outcome unit)) (d : Db) : Db * outcome unit :=
  match ops with
  | [] => (d, Ok tt)
  | op :: ops' =>
      match op d with
      | (d', Ok _) => run_all ops' d'
      | (d', Throw e) => (d', Throw e)
      end
  end.

(** No entry of the statement cache sits under an inherited name. *)
Definition no_inherited_entry (w : SQLite.World Db Stmt) : Prop :=
  forall k, inherited k = true -> SQLite.statementCache w !! k = None.

(** Every cached text has been handed to the compile step. *)
Definition cached_were_compiled (w : SQLite.World Db Stmt) : Prop :=
  forall k, is_Some (SQLite.statementCache w !! k) -> k ∈ SQLite.prepared w.

End Native.

End Notions.

(** * Properties *)

(** ** Strings and lookups *)

Lemma or_else_set (v d : string) : v <> "" -> or_else (Some v) d = v.
Proof.
  intros Hv. unfold or_else, truthy.
  destruct (String.eqb_spec v ""); [contradiction | reflexivity].
Qed.

Section ResolverFacts.
Context {Number : Type} (num : Z -> Number) (parseInt : string -> Number).

Local Abbreviation config := (Knexfile.config num parseInt).
Local Abbreviation development := (Knexfile.development num parseInt).
Local Abbreviation production := (Knexfile.production num parseInt).

Lemma config_development (env : Env) :
  config env !! "development" = Some (development env).
Proof. unfold Knexfile.config. apply lookup_insert_eq. Qed.

Lemma config_production (env : Env) :
  config env !! "production" = Some (production env).
Proof.
  unfold Knexfile.config.
  rewrite lookup_insert_ne by discriminate. apply lookup_insert_eq.
Qed.

Lemma config_test (env : Env) :
  config env !! "test" = Some Knexfile.test.
Proof.
  unfold Knexfile.config.
  do 2 (rewrite lookup_insert_ne by discriminate). apply lookup_insert_eq.
Qed.

(** Any other name is not an own property of [config]. *)
Lemma config_other (env : Env) (stage : string) :
  stage <> "development" -> stage <> "production" -> stage <> "test" ->
  config env !! stage = None.
Proof.
  intros H1 H2 H3. unfold Knexfile.config.
  do 3 (rewrite lookup_insert_ne by congruence). apply lookup_empty.
Qed.

(** The code's token test agrees with the specification's table. *)
Lemma getClientName_backend (env : Env) :
  Knexfile.getClientName (Knexfile.DB_CLIENT env)
  = Spec.client_name (Spec.backend_of_token (env !! "DB_CLIENT")).
Proof.
  unfold Knexfile.DB_CLIENT, Knexfile.getClientName, Spec.backend_of_token.
  destruct (env !! "DB_CLIENT") as [t|]; [|reflexivity].
  destruct (String.eqb_spec t "") as [->|Hne]; [reflexivity|].
  rewrite or_else_set by assumption.
  destruct (String.eqb_spec t "pg") as [->|H1]; [reflexivity|].
  destruct (String.eqb_spec t "postgresql") as [->|H2]; [reflexivity|].
  rewrite bool_decide_eq_false_2 by (rewrite !elem_of_cons, elem_of_nil; tauto).
  destruct (String.eqb_spec t "mysql") as [->|H3]; [reflexivity|].
  destruct (String.eqb_spec t "mysql2") as [->|H4]; [reflexivity|].
  rewrite bool_decide_eq_false_2 by (rewrite !elem_of_cons, elem_of_nil; tauto).
  reflexivity.
Qed.

Lemma connection_backend (env : Env) :
  Spec.connection_fits (Spec.backend_of_token (env !! "DB_CLIENT"))
    (Knexfile.buildConnectionConfig parseInt (Knexfile.DB_CLIENT env) env) = true.
Proof.
  unfold Knexfile.DB_CLIENT, Knexfile.buildConnectionConfig, Spec.backend_of_token.
  destruct (env !! "DB_CLIENT") as [t|]; [|reflexivity].
  destruct (String.eqb_spec t "") as [->|Hne]; [reflexivity|].
  rewrite or_else_set by assumption.
  destruct (String.eqb_spec t "pg") as [->|H1];
    [cbn; destruct (truthy _); reflexivity|].
  destruct (String.eqb_spec t "postgresql") as [->|H2];
    [cbn; destruct (truthy _); reflexivity|].
  rewrite bool_decide_eq_false_2 by (rewrite !elem_of_cons, elem_of_nil; tauto).
  destruct (String.eqb_spec t "mysql") as [->|H3]; [reflexivity|].
  destruct (String.eqb_spec t "mysql2") as [->|H4]; [reflexivity|].
  rewrite bool_decide_eq_false_2 by (rewrite !elem_of_cons, elem_of_nil; tauto).
  reflexivity.
Qed.

(** C8. Whatever [DB_CLIENT] holds, the resolver yields one of the three
    client names and never fails: "pg" and "postgresql" give postgres,
    "mysql" and "mysql2" give mysql, and "better-sqlite3", "sqlite3", any
    other text or no value at all give the embedded engine; the
    connection parameters have the shape of that backend. *)
Theorem client_token_resolution (env : Env) :
  let backend := Spec.backend_of_token (env !! "DB_CLIENT") in
  Knexfile.client (development env) = Spec.client_name backend /\
  Knexfile.client (production env) = Spec.client_name backend /\
  Spec.connection_fits backend (Knexfile.connection (development env)) = true /\
  Spec.connection_fits backend (Knexfile.connection (production env)) = true /\
  Knexfile.getClientName "pg" = "pg" /\
  Knexfile.getClientName "postgresql" = "pg" /\
  Knexfile.getClientName "mysql" = "mysql2" /\
  Knexfile.getClientName "mysql2" = "mysql2" /\
  Knexfile.getClientName "better-sqlite3" = "better-sqlite3" /\
  Knexfile.getClientName "sqlite3" = "better-sqlite3" /\
  Knexfile.getClientName (Knexfile.DB_CLIENT (delete "DB_CLIENT" env)) = "better-sqlite3".
Proof.
  cbn zeta. repeat split; try reflexivity.
  - apply getClientName_backend.
  - apply getClientName_backend.
  - apply connection_backend.
  - apply connection_backend.
  - unfold Knexfile.DB_CLIENT. rewrite lookup_delete_eq. reflexivity.
Qed.

(** C7. Under every assignment of the environment variables the test
    stage resolves to the embedded engine's client with the file
    ./data/test.sqlite3. *)
Theorem test_stage_is_fixed (env : Env) :
  exists d, config env !! "test" = Some d /\
            Knexfile.client d = "better-sqlite3" /\
            Knexfile.connection d = Knexfile.ConnFile "./data/test.sqlite3".
Proof.
  exists Knexfile.test. split; [apply config_test | split; reflexivity].
Qed.

(** C10. Under every environment the development and the production
    stage resolve to the same descriptor: same client, same connection
    parameters, same pool bounds, same null-as-default flag. *)
Theorem development_equals_production (env : Env) :
  exists d, config env !! "development" = Some d /\
            config env !! "production" = Some d /\
            Knexfile.client d = Knexfile.getClientName (Knexfile.DB_CLIENT env) /\
            Knexfile.connection d
              = Knexfile.buildConnectionConfig parseInt (Knexfile.DB_CLIENT env) env /\
            Knexfile.pool d
              = Some (Knexfile.buildPoolConfig num parseInt (Knexfile.DB_CLIENT env) env) /\
            Knexfile.useNullAsDefault d = Knexfile.isSQLite (Knexfile.DB_CLIENT env).
Proof.
  exists (development env).
  split; [apply config_development|].
  split; [apply config_production|].
  repeat split; reflexivity.
Qed.

End ResolverFacts.

Section PoolFacts.
Context {Number : Type} (num : Z -> Number) (parseInt : string -> Number).

Local Abbreviation config := (Knexfile.config num parseInt).

(** The own properties of [config] are its three stages. *)
Lemma config_stages (env : Env) (stage : string) (d : Knexfile.KnexConfig Number) :
  config env !! stage = Some d ->
  (stage = "development" /\ d = Knexfile.development num parseInt env) \/
  (stage = "production" /\ d = Knexfile.production num parseInt env) \/
  (stage = "test" /\ d = Knexfile.test).
Proof.
  intros H.
  destruct (decide (stage = "development")) as [->|H1].
  { rewrite config_development in H. left. split; congruence. }
  destruct (decide (stage = "production")) as [->|H2].
  { rewrite config_production in H. right; left. split; congruence. }
  destruct (decide (stage = "test")) as [->|H3].
  { rewrite config_test in H. right; right. split; congruence. }
  rewrite config_other in H by assumption. discriminate.
Qed.

Lemma pool_sqlite_token (env : Env) :
  env !! "DB_CLIENT" ∈ [None; Some ""; Some "better-sqlite3"; Some "sqlite3"] ->
  Knexfile.buildPoolConfig num parseInt (Knexfile.DB_CLIENT env) env
  = Knexfile.mkPool (num 1) (num 1) None None.
Proof.
  unfold Knexfile.DB_CLIENT. rewrite !elem_of_cons, elem_of_nil.
  intros [->|[->|[->|[->|[]]]]]; reflexivity.
Qed.

Lemma pool_server_token (env : Env) :
  env !! "DB_CLIENT" ∈ [Some "pg"; Some "postgresql"; Some "mysql"; Some "mysql2"] ->
  Knexfile.buildPoolConfig num parseInt (Knexfile.DB_CLIENT env) env
  = Knexfile.mkPool (parseInt (or_else (env !! "DB_POOL_MIN") "0"))
                    (parseInt (or_else (env !! "DB_POOL_MAX") "10"))
                    (Some (num 30000)) (Some (num 30000)).
Proof.
  unfold Knexfile.DB_CLIENT. rewrite !elem_of_cons, elem_of_nil.
  intros [->|[->|[->|[->|[]]]]]; reflexivity.
Qed.

(** C6, as amended.  The descriptor of the test stage carries no pool
    bounds.  For the development and production stages: when
    [DB_CLIENT] is "better-sqlite3" or "sqlite3", or is unset or empty,
    the pool is min = 1, max = 1 with no timeouts, whatever
    [DB_POOL_MIN] and [DB_POOL_MAX] hold; when [DB_CLIENT] is "pg",
    "postgresql", "mysql" or "mysql2", the pool is
    min = parseInt(DB_POOL_MIN || "0"), max = parseInt(DB_POOL_MAX || "10")
    with both timeouts at 30000. *)
Theorem pool_bounds_by_token (env : Env) (stage : string)
    (d : Knexfile.KnexConfig Number) :
  config env !! stage = Some d ->
  (stage = "test" -> Knexfile.pool d = None) /\
  (stage <> "test" ->
   env !! "DB_CLIENT" ∈ [None; Some ""; Some "better-sqlite3"; Some "sqlite3"] ->
   Knexfile.pool d = Some (Knexfile.mkPool (num 1) (num 1) None None)) /\
  (stage <> "test" ->
   env !! "DB_CLIENT" ∈ [Some "pg"; Some "postgresql"; Some "mysql"; Some "mysql2"] ->
   Knexfile.pool d
   = Some (Knexfile.mkPool (parseInt (or_else (env !! "DB_POOL_MIN") "0"))
                           (parseInt (or_else (env !! "DB_POOL_MAX") "10"))
                           (Some (num 30000)) (Some (num 30000)))).
Proof.
  intros H.
  destruct (config_stages env stage d H) as [[-> ->]|[[-> ->]|[-> ->]]].
  - split; [discriminate|]. split; intros _ Htok; cbn; f_equal.
    + apply pool_sqlite_token; assumption.
    + apply pool_server_token; assumption.
  - split; [discriminate|]. split; intros _ Htok; cbn; f_equal.
    + apply pool_sqlite_token; assumption.
    + apply pool_server_token; assumption.
  - split; [reflexivity|]. split; intros Hne; contradiction.
Qed.

End PoolFacts.

(** [pool_bounds_by_token] at work: the production stage of [Reference.env_pg]. *)
Lemma pool_bounds_by_token_witness :
  Knexfile.pool (Knexfile.production Reference.num Reference.parseInt Reference.env_pg)
  = Some (Knexfile.mkPool (Some 0) (Some 20) (Some (Some 30000)) (Some (Some 30000))).
Proof.
  destruct (pool_bounds_by_token Reference.num Reference.parseInt Reference.env_pg "production"
              (Knexfile.production Reference.num Reference.parseInt Reference.env_pg))
    as (_ & _ & H).
  - reflexivity.
  - apply H.
    + discriminate.
    + vm_compute. apply list_elem_of_here.
Defined.

(** C6, the claim as stated fails: with no variable set at all, the test
    stage has the embedded engine's client and no pool bounds, so not
    min = 1 and max = 1. *)
Lemma test_stage_pool_not_as_specified :
  ~ (forall d, Knexfile.config Reference.num Reference.parseInt ∅ !! "test" = Some d ->
               Spec.pool_as_specified Reference.num Reference.parseInt ∅ d).
Proof.
  intros H.
  destruct (H Knexfile.test) as [Hsqlite _]; [reflexivity|].
  destruct Hsqlite as (p & Hp & _); [reflexivity|].
  discriminate Hp.
Qed.

(** An unrecognised token: the client falls back to the embedded engine
    while the pool and the null-as-default flag take the server branch. *)
Example unrecognised_token_descriptor :
  Knexfile.development Reference.num Reference.parseInt (<["DB_CLIENT" := "sqlite"]> ∅)
  = {| Knexfile.client := "better-sqlite3";
       Knexfile.connection := Knexfile.ConnFile "./data/dev.sqlite3";
       Knexfile.pool := Some (Knexfile.mkPool (Some 0) (Some 10)
                                              (Some (Some 30000)) (Some (Some 30000)));
       Knexfile.useNullAsDefault := false;
       Knexfile.migrations_directory := "./migrations" |}.
Proof. reflexivity. Qed.

(** ** The query-builder service *)

Section DBServiceFacts.
Context {Number : Type} (num : Z -> Number) (parseInt : string -> Number).
Context {Knex : Type}.
Variable DBInstance : member (Knexfile.KnexConfig Number) -> outcome Knex.
Variable raw_throws : Knex -> list string -> string -> option Exn.

Local Abbreviation World := (@DBService.World Number).
Local Abbreviation applyDatabaseOptimizations :=
  (DBService.applyDatabaseOptimizations (Number:=Number) raw_throws).
Local Abbreviation connection := (DBService.connection DBInstance raw_throws).
Local Abbreviation attempted := (DBService.attempted raw_throws).
Local Abbreviation first_failure := (DBService.first_failure raw_throws).

Local Abbreviation active_is_sqlite := (@DBService.active_is_sqlite Number).
Local Abbreviation warning_of := DBService.warning_of.

Lemma apply_on_sqlite (instance : Knex) (w : World) :
  active_is_sqlite w = true ->
  applyDatabaseOptimizations instance w
  = ({| DBService.env := DBService.env w;
        DBService.knexfile := DBService.knexfile w;
        DBService.raws :=
          (DBService.raws w
             ++ attempted instance (DBService.raws w) DBService.PRAGMAS)%list;
        DBService.warnings :=
          (DBService.warnings w
             ++ warning_of (first_failure instance (DBService.raws w)
                              DBService.PRAGMAS))%list |},
     Ok tt).
Proof.
  unfold DBService.active_is_sqlite. intros Hcond.
  unfold DBService.applyDatabaseOptimizations, bind, gets. rewrite Hcond.
  unfold try_catch, bind, DBService.raw, DBService.console_warn, modify,
    DBService.PRAGMAS.
  cbn [DBService.attempted DBService.first_failure DBService.raws
       DBService.env DBService.knexfile DBService.warnings].
  repeat match goal with
         | |- context [raw_throws ?i ?h ?q] =>
             destruct (raw_throws i h q);
             cbn [DBService.raws DBService.env DBService.knexfile
                  DBService.warnings DBService.warning_of]
         end;
    rewrite <- ?app_assoc, ?app_nil_r; reflexivity.
Qed.

Lemma apply_elsewhere (instance : Knex) (w : World) :
  active_is_sqlite w = false ->
  applyDatabaseOptimizations instance w = (w, Ok tt).
Proof.
  unfold DBService.active_is_sqlite. intros Hcond.
  unfold DBService.applyDatabaseOptimizations, bind, gets. rewrite Hcond.
  reflexivity.
Qed.

(** [applyDatabaseOptimizations] returns normally, always. *)
Lemma apply_never_throws (instance : Knex) (w : World) :
  snd (applyDatabaseOptimizations instance w) = Ok tt.
Proof.
  destruct (active_is_sqlite w) eqn:Hcond.
  - rewrite apply_on_sqlite by assumption. reflexivity.
  - rewrite apply_elsewhere by assumption. reflexivity.
Qed.

(** It leaves the environment and the loaded configuration alone. *)
Lemma apply_keeps_config (instance : Knex) (w : World) :
  DBService.knexfile (fst (applyDatabaseOptimizations instance w)) = DBService.knexfile w
  /\ DBService.env (fst (applyDatabaseOptimizations instance w)) = DBService.env w.
Proof.
  destruct (active_is_sqlite w) eqn:Hcond.
  - rewrite apply_on_sqlite by assumption. split; reflexivity.
  - rewrite apply_elsewhere by assumption. split; reflexivity.
Qed.

(** [connection(stage)] in terms of its two steps. *)
Lemma connection_unfold (stage : string) (w : World) :
  connection stage w
  = match DBInstance (DBService.descriptor w (Some stage)) with
    | Ok instance => (fst (applyDatabaseOptimizations instance w), Ok instance)
    | Throw e => (w, Throw e)
    end.
Proof.
  unfold DBService.connection, bind, gets, DBService.new_instance.
  destruct (DBInstance _) as [instance|e]; [|reflexivity].
  pose proof (apply_never_throws instance w) as Hok.
  destruct (DBService.applyDatabaseOptimizations raw_throws instance w) as [w' r].
  cbn in Hok. subst r. reflexivity.
Qed.

Lemma connection_keeps_config (stage : string) (w : World) :
  DBService.knexfile (fst (connection stage w)) = DBService.knexfile w.
Proof.
  rewrite connection_unfold.
  destruct (DBInstance _) as [instance|e]; [|reflexivity].
  apply apply_keeps_config.
Qed.

(** When nothing throws, the walk covers the whole list. *)
Lemma attempted_complete (instance : Knex) (l h : list string) :
  first_failure instance h l = None -> attempted instance h l = l.
Proof.
  revert h. induction l as [|q l IH]; intros h Hnone; [reflexivity|].
  cbn in *. destruct (raw_throws instance h q); [discriminate|].
  f_equal. apply IH. assumption.
Qed.

(** The walk is a prefix of the list, and stops right after a failure. *)
Lemma attempted_prefix (instance : Knex) (l h : list string) :
  exists n, attempted instance h l = take n l.
Proof.
  revert h. induction l as [|q l IH]; intros h.
  - exists 0%nat. reflexivity.
  - cbn. destruct (raw_throws instance h q).
    + exists 1%nat. reflexivity.
    + destruct (IH (h ++ [q])%list) as [n Hn]. exists (S n). cbn. congruence.
Qed.

(** The loaded configuration is the one computed at start, whatever
    happens afterwards. *)
Lemma steps_keep_config (evs : list DBService.Event) (w : World) :
  DBService.knexfile (DBService.steps DBInstance raw_throws evs w) = DBService.knexfile w.
Proof.
  revert w. induction evs as [|ev evs IH]; intros w; [reflexivity|].
  cbn. unfold DBService.steps in IH. rewrite IH.
  destruct ev as [k v|stage]; cbn; [reflexivity|].
  apply connection_keeps_config.
Qed.

End DBServiceFacts.

Section DBServiceClaims.
Context {Number : Type} (num : Z -> Number) (parseInt : string -> Number).
Context {Knex : Type}.
Variable DBInstance : member (Knexfile.KnexConfig Number) -> outcome Knex.
Variable raw_throws : Knex -> list string -> string -> option Exn.

Local Abbreviation World := (@DBService.World Number).
Local Abbreviation connection := (DBService.connection DBInstance raw_throws).
Local Abbreviation attempted := (DBService.attempted raw_throws).
Local Abbreviation first_failure := (DBService.first_failure raw_throws).

(** C3, as amended.  The descriptors are resolved once, from the
    environment as it is when the process starts: whatever variables
    are set and whatever connections are opened afterwards, a request
    for a stage obtains the descriptor computed at start, and
    [connection] builds its instance from it. *)
Theorem descriptor_fixed_at_start (e : Env) (evs : list DBService.Event)
    (stage : string) :
  let w := DBService.steps DBInstance raw_throws evs (DBService.boot num parseInt e) in
  DBService.descriptor w (Some stage) = JS.get (Knexfile.config num parseInt e) stage /\
  snd (connection stage w) = DBInstance (JS.get (Knexfile.config num parseInt e) stage).
Proof.
  cbn zeta.
  assert (Hd : DBService.descriptor
                 (DBService.steps DBInstance raw_throws evs
                    (DBService.boot num parseInt e)) (Some stage)
               = JS.get (Knexfile.config num parseInt e) stage).
  { unfold DBService.descriptor. rewrite steps_keep_config. reflexivity. }
  split; [exact Hd|].
  rewrite connection_unfold, Hd.
  destruct (DBInstance _); reflexivity.
Qed.

End DBServiceClaims.

(** C2. The code at the failing inputs.  In a postgres deployment whose
    active stage is the test stage, [connection("development")] builds
    an instance whose client is "pg" and hands it the four pragma
    statements; in one whose active stage is development,
    [connection("test")] builds an instance of the embedded engine and
    hands it none.  The statements follow the client of the stage that
    [DB_CONNECTION] names, not the descriptor of the instance. *)
Lemma pragmas_follow_active_stage_not_instance :
  let opened :=
    DBService.connection Reference.DBInstance Reference.raw_ok "development"
      (DBService.boot Reference.num Reference.parseInt Reference.env_pg_test) in
  let opened' :=
    DBService.connection Reference.DBInstance Reference.raw_ok "test"
      (DBService.boot Reference.num Reference.parseInt Reference.env_pg_dev) in
  (exists d, snd opened = Ok (Own d) /\ Knexfile.client d = "pg") /\
  DBService.raws (fst opened)
  = [ "PRAGMA journal_mode = WAL"; "PRAGMA synchronous = NORMAL";
      "PRAGMA foreign_keys = ON"; "PRAGMA busy_timeout = 5000" ] /\
  (exists d, snd opened' = Ok (Own d) /\ Knexfile.client d = "better-sqlite3") /\
  DBService.raws (fst opened') = [].
Proof.
  cbn zeta. split; [|split; [|split]].
  - eexists. split; reflexivity.
  - reflexivity.
  - eexists. split; reflexivity.
  - reflexivity.
Qed.

(** C3, the claim as stated fails: setting [DB_CLIENT] after the start
    is not observed by a later request for the development stage. *)
Lemma environment_change_not_observed :
  ~ (forall (e : Env) (k v stage : string),
        DBService.descriptor
          (DBService.setenv k v (DBService.boot Reference.num Reference.parseInt e))
          (Some stage)
        = DBService.descriptor
            (DBService.boot Reference.num Reference.parseInt (<[k := v]> e))
            (Some stage)).
Proof.
  intros H. specialize (H ∅ "DB_CLIENT" "pg" "development").
  apply (f_equal Knexfile.client_of) in H. vm_compute in H. discriminate H.
Qed.

(** ** The native service *)

Section SQLiteFacts.
Context {Db Stmt Value Row RunResult : Type}.
Context {driver : SQLite.NativeDriver Db Stmt Value Row RunResult}.

Local Abbreviation W := (SQLite.World Db Stmt).

Local Abbreviation compiled := (@SQLite.compiled Db Stmt).

Lemma get_own {A : Type} (o : gmap string A) (k : string) (a : A) :
  o !! k = Some a -> JS.get o k = Own a.
Proof. intros H. unfold JS.get. rewrite H. reflexivity. Qed.

Lemma get_undefined {A : Type} (o : gmap string A) (k : string) :
  o !! k = None -> inherited k = false -> JS.get o k = Undefined.
Proof. intros H Hk. unfold JS.get. rewrite H, Hk. reflexivity. Qed.

Lemma get_inherited {A : Type} (o : gmap string A) (k : string) :
  o !! k = None -> inherited k = true -> JS.get o k = Inherited.
Proof. intros H Hk. unfold JS.get. rewrite H, Hk. reflexivity. Qed.

(** A cached statement is run as it is. *)
Lemma query_cached {A : Type} (method : string)
    (op : Stmt -> list Value -> Db -> Db * outcome A)
    (sql : string) (params : SQLite.Params Value) (s : Stmt) (w : W) :
  SQLite.statementCache w !! sql = Some s ->
  SQLite.query method op sql params w
  = try_catch (SQLite.on_db (op s (SQLite.parameters params))) (SQLite.report method) w.
Proof.
  intros Hs. unfold SQLite.query, SQLite.statement, try_catch, bind, gets.
  cbv beta iota. rewrite (get_own _ _ _ Hs). reflexivity.
Qed.

(** A text seen for the first time is compiled, stored, then run. *)
Lemma query_compiled {A : Type} (method : string)
    (op : Stmt -> list Value -> Db -> Db * outcome A)
    (sql : string) (params : SQLite.Params Value) (s : Stmt) (w : W) :
  SQLite.statementCache w !! sql = None -> inherited sql = false ->
  SQLite.db_prepare sql (SQLite.nativeDb w) = Ok s ->
  SQLite.query method op sql params w
  = try_catch (SQLite.on_db (op s (SQLite.parameters params))) (SQLite.report method)
      (compiled sql s w).
Proof.
  intros Hnone Hk Hprep.
  unfold SQLite.query, SQLite.statement, try_catch, bind, gets.
  cbv beta iota. rewrite (get_undefined _ _ Hnone Hk).
  unfold SQLite.prepare, SQLite.store, modify. rewrite Hprep. reflexivity.
Qed.

(** A text the driver rejects leaves the cache as it was; the compile
    step has been tried. *)
Lemma query_rejected {A : Type} (method : string)
    (op : Stmt -> list Value -> Db -> Db * outcome A)
    (sql : string) (params : SQLite.Params Value) (e : Exn) (w : W) :
  SQLite.statementCache w !! sql = None -> inherited sql = false ->
  SQLite.db_prepare sql (SQLite.nativeDb w) = Throw e ->
  SQLite.statementCache (fst (SQLite.query method op sql params w))
  = SQLite.statementCache w /\
  SQLite.prepared (fst (SQLite.query method op sql params w))
  = (SQLite.prepared w ++ [sql])%list /\
  snd (SQLite.query method op sql params w) = Throw e.
Proof.
  intros Hnone Hk Hprep.
  unfold SQLite.query, SQLite.statement, try_catch, bind, gets.
  cbv beta iota. rewrite (get_undefined _ _ Hnone Hk).
  unfold SQLite.prepare. rewrite Hprep. cbn. repeat split; reflexivity.
Qed.

(** Running a statement touches neither the cache nor the compile log. *)
Lemma run_statement_keeps_cache {A : Type} (method : string)
    (op : Db -> Db * outcome A) (w : W) :
  SQLite.statementCache (fst (try_catch (SQLite.on_db op) (SQLite.report method) w))
  = SQLite.statementCache w /\
  SQLite.prepared (fst (try_catch (SQLite.on_db op) (SQLite.report method) w))
  = SQLite.prepared w.
Proof.
  unfold try_catch, SQLite.on_db.
  destruct (op (SQLite.nativeDb w)) as [d [a|e]]; cbn; split; reflexivity.
Qed.

(** What one query does to the cache and to the compile log. *)
Lemma query_effect {A : Type} (method : string)
    (op : Stmt -> list Value -> Db -> Db * outcome A)
    (sql : string) (params : SQLite.Params Value) (w : W) :
  let w' := fst (SQLite.query method op sql params w) in
  match JS.get (SQLite.statementCache w) sql, SQLite.db_prepare sql (SQLite.nativeDb w) with
  | Undefined, Ok s =>
      SQLite.statementCache w' = <[sql := s]> (SQLite.statementCache w) /\
      SQLite.prepared w' = (SQLite.prepared w ++ [sql])%list
  | Undefined, Throw _ =>
      SQLite.statementCache w' = SQLite.statementCache w /\
      SQLite.prepared w' = (SQLite.prepared w ++ [sql])%list
  | _, _ =>
      SQLite.statementCache w' = SQLite.statementCache w /\
      SQLite.prepared w' = SQLite.prepared w
  end.
Proof.
  cbn zeta. unfold JS.get.
  destruct (SQLite.statementCache w !! sql) as [s|] eqn:Hs.
  { rewrite (query_cached _ _ _ _ s) by assumption.
    destruct (SQLite.db_prepare sql (SQLite.nativeDb w));
      apply run_statement_keeps_cache. }
  destruct (inherited sql) eqn:Hk.
  { unfold SQLite.query, SQLite.statement, try_catch, bind, gets.
    cbv beta iota. rewrite (get_inherited _ _ Hs Hk). cbn.
    destruct (SQLite.db_prepare sql (SQLite.nativeDb w)); split; reflexivity. }
  destruct (SQLite.db_prepare sql (SQLite.nativeDb w)) as [s|e] eqn:Hprep.
  - rewrite (query_compiled _ _ _ _ s) by assumption.
    apply (run_statement_keeps_cache method _ (compiled sql s w)).
  - destruct (query_rejected method op sql params e w) as (H1 & H2 & _); auto.
Qed.

End SQLiteFacts.

Section StatementCache.
Context {Db Stmt Value Row RunResult : Type}.
Context {driver : SQLite.NativeDriver Db Stmt Value Row RunResult}.

Local Abbreviation W := (SQLite.World Db Stmt).
Local Abbreviation perform := (SQLite.perform (Row:=Row) (RunResult:=RunResult) SQLite.RealService).
Local Abbreviation perform_all :=
  (SQLite.perform_all (Row:=Row) (RunResult:=RunResult) SQLite.RealService).

Lemma get_undefined_inv {A : Type} (o : gmap string A) (k : string) :
  JS.get o k = Undefined -> o !! k = None.
Proof.
  unfold JS.get. destruct (o !! k); [discriminate|reflexivity].
Qed.

(** [get], [all] and [run] treat the cache alike. *)
Lemma perform_effect (c : SQLite.Call Value) (w : W) :
  let sql := SQLite.call_sql c in
  let w' := perform c w in
  match JS.get (SQLite.statementCache w) sql, SQLite.db_prepare sql (SQLite.nativeDb w) with
  | Undefined, Ok s =>
      SQLite.statementCache w' = <[sql := s]> (SQLite.statementCache w) /\
      SQLite.prepared w' = (SQLite.prepared w ++ [sql])%list
  | Undefined, Throw _ =>
      SQLite.statementCache w' = SQLite.statementCache w /\
      SQLite.prepared w' = (SQLite.prepared w ++ [sql])%list
  | _, _ =>
      SQLite.statementCache w' = SQLite.statementCache w /\
      SQLite.prepared w' = SQLite.prepared w
  end.
Proof.
  unfold SQLite.perform. destruct c as [[| |] sql params]; cbn -[JS.get];
    apply query_effect.
Qed.

(** No call removes or replaces an entry. *)
Lemma perform_grows (c : SQLite.Call Value) (w : W) :
  SQLite.statementCache w ⊆ SQLite.statementCache (perform c w).
Proof.
  pose proof (perform_effect c w) as H. cbn zeta in H.
  destruct (JS.get (SQLite.statementCache w) (SQLite.call_sql c)) eqn:Hget;
    destruct (SQLite.db_prepare (SQLite.call_sql c) (SQLite.nativeDb w));
    destruct H as [-> _]; try reflexivity.
  apply insert_subseteq, get_undefined_inv. assumption.
Qed.

Lemma perform_all_grows (cs : list (SQLite.Call Value)) (w : W) :
  SQLite.statementCache w ⊆ SQLite.statementCache (perform_all cs w).
Proof.
  revert w. induction cs as [|c cs IH]; intros w; [reflexivity|].
  cbn. etransitivity; [apply perform_grows|]. apply IH.
Qed.

(** A call whose text is in the cache compiles nothing. *)
Lemma perform_cached (c : SQLite.Call Value) (s : Stmt) (w : W) :
  SQLite.statementCache w !! SQLite.call_sql c = Some s ->
  SQLite.statementCache (perform c w) = SQLite.statementCache w /\
  SQLite.prepared (perform c w) = SQLite.prepared w.
Proof.
  intros Hs. pose proof (perform_effect c w) as H. cbn zeta in H.
  rewrite (get_own _ _ _ Hs) in H. exact H.
Qed.

(** The first call with a text the driver compiles stores the statement. *)
Lemma perform_first (c : SQLite.Call Value) (s : Stmt) (w : W) :
  SQLite.statementCache w !! SQLite.call_sql c = None ->
  inherited (SQLite.call_sql c) = false ->
  SQLite.db_prepare (SQLite.call_sql c) (SQLite.nativeDb w) = Ok s ->
  SQLite.statementCache (perform c w)
  = <[SQLite.call_sql c := s]> (SQLite.statementCache w) /\
  SQLite.prepared (perform c w) = (SQLite.prepared w ++ [SQLite.call_sql c])%list.
Proof.
  intros Hnone Hk Hprep. pose proof (perform_effect c w) as H. cbn zeta in H.
  rewrite (get_undefined _ _ Hnone Hk), Hprep in H. exact H.
Qed.

(** C4, as amended.  [get], [all] and [run] share one cache keyed by
    the exact SQL text.  For every text that the driver compiles (and
    that is not the name of a member every object inherits): the first
    call, by any of the three operations, compiles the statement once
    and stores it under the text, leaving every other entry as it was;
    after any further calls the entry is still that statement and no
    entry has been removed; a later call with the same text compiles
    nothing and leaves the cache unchanged; and a first call with a
    different text adds an entry of its own next to it. *)
Theorem statement_cache_reuse (sql : string) (c1 c2 c3 : SQLite.Call Value)
    (later : list (SQLite.Call Value)) (s s3 : Stmt) (w : W) :
  SQLite.call_sql c1 = sql ->
  SQLite.call_sql c2 = sql ->
  SQLite.statementCache w !! sql = None ->
  inherited sql = false ->
  SQLite.db_prepare sql (SQLite.nativeDb w) = Ok s ->
  let w1 := perform c1 w in
  let w2 := perform_all later w1 in
  SQLite.prepared w1 = (SQLite.prepared w ++ [sql])%list /\
  SQLite.statementCache w1 = <[sql := s]> (SQLite.statementCache w) /\
  (forall sql', sql' <> sql ->
                SQLite.statementCache w1 !! sql' = SQLite.statementCache w !! sql') /\
  SQLite.statementCache w2 !! sql = Some s /\
  SQLite.statementCache w1 ⊆ SQLite.statementCache w2 /\
  SQLite.prepared (perform c2 w2) = SQLite.prepared w2 /\
  SQLite.statementCache (perform c2 w2) = SQLite.statementCache w2 /\
  (SQLite.call_sql c3 <> sql ->
   SQLite.statementCache w2 !! SQLite.call_sql c3 = None ->
   inherited (SQLite.call_sql c3) = false ->
   SQLite.db_prepare (SQLite.call_sql c3) (SQLite.nativeDb w2) = Ok s3 ->
   SQLite.statementCache (perform c3 w2) !! sql = Some s /\
   SQLite.statementCache (perform c3 w2) !! SQLite.call_sql c3 = Some s3).
Proof.
  intros <- Hc2 Hnone Hk Hprep w1 w2.
  destruct (perform_first c1 s w Hnone Hk Hprep) as [Hcache1 Hlog1].
  fold w1 in Hcache1, Hlog1.
  assert (Hw1 : SQLite.statementCache w1 !! SQLite.call_sql c1 = Some s).
  { rewrite Hcache1. apply lookup_insert_eq. }
  assert (Hw2 : SQLite.statementCache w2 !! SQLite.call_sql c1 = Some s).
  { eapply lookup_weaken; [exact Hw1|]. apply perform_all_grows. }
  split; [exact Hlog1|]. split; [exact Hcache1|].
  split. { intros sql' Hne. rewrite Hcache1. apply lookup_insert_ne. congruence. }
  split; [exact Hw2|]. split; [apply perform_all_grows|].
  rewrite <- Hc2 in Hw2.
  destruct (perform_cached c2 s w2 Hw2) as [Hcache3 Hlog3].
  split; [exact Hlog3|]. split; [exact Hcache3|].
  intros Hne Hnone3 Hk3 Hprep3.
  destruct (perform_first c3 s3 w2 Hnone3 Hk3 Hprep3) as [Hcache4 _].
  rewrite Hcache4. rewrite Hc2 in Hw2. split.
  - rewrite lookup_insert_ne by congruence. exact Hw2.
  - apply lookup_insert_eq.
Qed.

End StatementCache.

(** [statement_cache_reuse] at work on the reference driver: a [get],
    then an insertion, then an [all] with the text of the [get]. *)
Lemma statement_cache_reuse_witness :
  let c1 := SQLite.mkCall SQLite.OpGet "SELECT v FROM t" (SQLite.PArray []) in
  let c2 := SQLite.mkCall SQLite.OpAll "SELECT v FROM t" SQLite.PMissing in
  let ins := SQLite.mkCall SQLite.OpRun "INSERT INTO t VALUES (?)" (SQLite.PArray [5]) in
  let w2 := SQLite.perform_all SQLite.RealService [ins]
              (SQLite.perform SQLite.RealService c1 Reference.fresh) in
  SQLite.prepared (SQLite.perform SQLite.RealService c2 w2) = SQLite.prepared w2.
Proof.
  cbn zeta.
  refine (proj1 (proj2 (proj2 (proj2 (proj2 (proj2
    (statement_cache_reuse "SELECT v FROM t"
       (SQLite.mkCall SQLite.OpGet "SELECT v FROM t" (SQLite.PArray []))
       (SQLite.mkCall SQLite.OpAll "SELECT v FROM t" SQLite.PMissing)
       (SQLite.mkCall SQLite.OpRun "DELETE FROM t" (SQLite.PArray []))
       [SQLite.mkCall SQLite.OpRun "INSERT INTO t VALUES (?)" (SQLite.PArray [5])]
       Reference.SelectAll Reference.DeleteAll Reference.fresh
       _ _ _ _ _))))))).
  - reflexivity.
  - reflexivity.
  - reflexivity.
  - reflexivity.
  - reflexivity.
Defined.

(** C4, the claim as stated fails: a text the driver rejects is not
    stored by the first call, and the second call with the same text
    hands it to the compile step again. *)
Lemma rejected_text_is_compiled_again :
  let c := SQLite.mkCall SQLite.OpGet "SELEC 1" (SQLite.PArray []) in
  let w1 := SQLite.perform SQLite.RealService c Reference.fresh in
  let w2 := SQLite.perform SQLite.RealService c w1 in
  SQLite.statementCache w1 !! "SELEC 1" = None /\
  SQLite.prepared w1 = ["SELEC 1"] /\
  SQLite.prepared w2 = ["SELEC 1"; "SELEC 1"].
Proof. vm_compute. repeat split. Qed.

(** A text that names an inherited member is never compiled: the member
    is taken for the statement and calling it fails. *)
Example inherited_name_is_not_compiled :
  SQLite.get SQLite.RealService "constructor" (SQLite.PArray []) Reference.fresh
  = ({| SQLite.nativeDb := []; SQLite.statementCache := ∅; SQLite.prepared := [];
        SQLite.console := [SQLite.LogError "SQLite get error:"
                             (TypeError "stmt.get is not a function")] |},
     Throw (TypeError "stmt.get is not a function")).
Proof. reflexivity. Qed.

Section NativeServiceClaims.
Context {Number : Type} (num : Z -> Number) (parseInt : string -> Number).
Context {Db Stmt Value Row RunResult : Type}.
Context {driver : SQLite.NativeDriver Db Stmt Value Row RunResult}.

Local Abbreviation W := (SQLite.World Db Stmt).

(** Once the statement for a text is at hand, cached or just compiled,
    a query is that statement run on the coerced parameters. *)
Lemma query_runs_statement {A : Type} (method : string)
    (op : Stmt -> list Value -> Db -> Db * outcome A)
    (sql : string) (params : SQLite.Params Value) (s : Stmt) (w : W) :
  snd (SQLite.statement sql w) = Ok (Own s) ->
  SQLite.query method op sql params w
  = try_catch (SQLite.on_db (op s (SQLite.parameters params))) (SQLite.report method)
      (fst (SQLite.statement sql w)).
Proof.
  intros Hs. unfold SQLite.query, try_catch, bind.
  destruct (SQLite.statement sql w) as [w0 r]. cbn in Hs. subst r. reflexivity.
Qed.

(** C9. In every call of [get], [all] or [run] of the real service, an
    array given as [params] is bound as it is, and a mapping is bound
    as the sequence of its values in enumeration order: the statement
    for the text runs on exactly these parameters. *)
Theorem parameters_bound_in_order (sql : string) (params : SQLite.Params Value)
    (s : Stmt) (w : W) :
  snd (SQLite.statement sql w) = Ok (Own s) ->
  let bound := match params with
               | SQLite.PArray l => l
               | SQLite.PObject props => map snd props
               | SQLite.PMissing => []
               end in
  let w0 := fst (SQLite.statement sql w) in
  SQLite.get SQLite.RealService sql params w
  = try_catch (SQLite.on_db (SQLite.stmt_get s bound)) (SQLite.report "get") w0 /\
  SQLite.all SQLite.RealService sql params w
  = try_catch (SQLite.on_db (SQLite.stmt_all s bound)) (SQLite.report "all") w0 /\
  SQLite.run SQLite.RealService sql params w
  = try_catch (SQLite.on_db (SQLite.stmt_run s bound)) (SQLite.report "run") w0.
Proof.
  intros Hs bound w0.
  assert (Hb : bound = SQLite.parameters params) by (destruct params; reflexivity).
  rewrite Hb. unfold SQLite.get, SQLite.all, SQLite.run.
  repeat split; apply query_runs_statement; assumption.
Qed.

(** C5. For every unit of work [fn] handed to [transaction] of the real
    service, on a driver that keeps the documented contract of its
    transaction wrapper: if [fn], applied to the service itself,
    returns, [transaction] returns its result and the database is as
    [fn] left it; if [fn] throws, [transaction] throws the same
    exception and the database is as it was before the call. *)
Theorem transaction_is_atomic (contract : SQLite.TransactionalDriver)
    (T : Type) (fn : SQLite.SQLiteServiceType -> M W T) (w : W) :
  match fn SQLite.RealService w with
  | (w', Ok v) =>
      SQLite.transaction SQLite.RealService fn w = (w', Ok v)
  | (w', Throw e) =>
      snd (SQLite.transaction SQLite.RealService fn w) = Throw e /\
      SQLite.nativeDb (fst (SQLite.transaction SQLite.RealService fn w))
      = SQLite.nativeDb w
  end.
Proof.
  unfold SQLite.transaction.
  destruct (fn SQLite.RealService w) as [w' [v|e]] eqn:Hfn.
  - apply SQLite.transaction_commits. exact Hfn.
  - rewrite (SQLite.transaction_rolls_back T _ w w' e Hfn). split; reflexivity.
Qed.

End NativeServiceClaims.

(** [parameters_bound_in_order] at work on the reference driver: a
    mapping with the single value 7 inserts 7. *)
Lemma parameters_bound_in_order_witness :
  SQLite.nativeDb
    (fst (SQLite.run SQLite.RealService "INSERT INTO t VALUES (?)"
            (SQLite.PObject [("v", 7)]) Reference.fresh))
  = [7].
Proof.
  destruct (parameters_bound_in_order "INSERT INTO t VALUES (?)"
              (SQLite.PObject [("v", 7)]) Reference.Insert Reference.fresh)
    as (_ & _ & Hrun).
  - reflexivity.
  - rewrite Hrun. reflexivity.
Defined.

(** [transaction_is_atomic] at work on the reference driver: a unit of
    work that inserts 7 and returns commits the row; one that inserts 7
    and then throws leaves the table empty and throws the same error. *)
Lemma transaction_is_atomic_witness :
  let insert := fun svc : SQLite.SQLiteServiceType =>
                  SQLite.run svc "INSERT INTO t VALUES (?)" (SQLite.PArray [7]) in
  let failing := fun svc : SQLite.SQLiteServiceType =>
                   (insert svc ;; throw (A:=unit) (Error "boom"))%js in
  SQLite.nativeDb (fst (SQLite.transaction SQLite.RealService insert Reference.fresh)) = [7]
  /\ snd (SQLite.transaction SQLite.RealService failing Reference.fresh)
     = Throw (Error "boom")
  /\ SQLite.nativeDb (fst (SQLite.transaction SQLite.RealService failing Reference.fresh))
     = [].
Proof.
  intros insert failing.
  assert (contract : SQLite.TransactionalDriver (driver := Reference.driver)).
  { split; intros T f w w' r Hf; cbn; unfold Reference.ref_transaction;
      rewrite Hf; reflexivity. }
  split.
  - pose proof (transaction_is_atomic contract _ insert Reference.fresh) as Hcommit.
    hnf in Hcommit. rewrite Hcommit. reflexivity.
  - exact (transaction_is_atomic contract _ failing Reference.fresh).
Defined.

(** The end-to-end case of the specification: with [DB_CLIENT=mysql2] and
    [DB_CONNECTION=development] the service is the stub, and [get] raises
    an error that names mysql2 and points to the DB service. *)
Example stub_names_mysql2 :
  let env : Env := <["DB_CLIENT" := "mysql2"]> (<["DB_CONNECTION" := "development"]> ∅) in
  let config := Knexfile.config Reference.num Reference.parseInt env in
  exists w svc,
    SQLite.SQLiteService config env Reference.fresh = (w, Ok svc) /\
    SQLite.isAvailable svc = false /\
    snd (SQLite.get svc "SELECT v FROM t" SQLite.PMissing w)
    = Throw (Error "SQLite service is not available with mysql2 client. Use DB service instead.").
Proof. cbn zeta. eexists _, _. split; [reflexivity|]. split; reflexivity. Qed.

(** * Further properties of the resolver *)

Section ResolverEdges.
Context {Number : Type} (num : Z -> Number) (parseInt : string -> Number).

Local Abbreviation config := (Knexfile.config num parseInt).

(** A variable set to the empty text reads as an unset one. *)
Lemma or_else_empty_unset (env : Env) (k x d : string) :
  or_else (<[k := ""]> env !! x) d = or_else (delete k env !! x) d.
Proof.
  destruct (decide (k = x)) as [->|Hne].
  - rewrite lookup_insert_eq, lookup_delete_eq. reflexivity.
  - rewrite lookup_insert_ne by exact Hne.
    rewrite (lookup_delete_ne env _ _ Hne). reflexivity.
Qed.

Lemma connection_empty_unset (env : Env) (k token : string) :
  Knexfile.buildConnectionConfig parseInt token (<[k := ""]> env)
  = Knexfile.buildConnectionConfig parseInt token (delete k env).
Proof.
  unfold Knexfile.buildConnectionConfig. rewrite !or_else_empty_unset.
  destruct (decide (k = "DATABASE_URL")) as [->|Hne].
  - rewrite lookup_insert_eq, lookup_delete_eq. reflexivity.
  - rewrite lookup_insert_ne by exact Hne.
    rewrite (lookup_delete_ne env _ _ Hne). reflexivity.
Qed.

(** X1. Setting any environment variable to the empty text gives the
    same descriptors, for all three stages, as removing it; the native
    service chooses the same active stage in both cases. *)
Theorem empty_variable_reads_as_unset (env : Env) (k : string) :
  config (<[k := ""]> env) = config (delete k env) /\
  SQLite.connectionType (<[k := ""]> env) = SQLite.connectionType (delete k env).
Proof.
  split.
  - unfold Knexfile.config, Knexfile.development, Knexfile.production,
      Knexfile.buildPoolConfig, Knexfile.DB_CLIENT.
    rewrite !or_else_empty_unset, !connection_empty_unset. reflexivity.
  - unfold SQLite.connectionType. apply or_else_empty_unset.
Qed.

(** X2. The descriptors depend on ten variables only: two environments
    that agree on them resolve to the same configuration, whatever else
    they hold ([DB_CONNECTION] included). *)
Theorem config_reads_ten_variables (env1 env2 : Env) :
  Forall (fun x => env1 !! x = env2 !! x) Notions.consumed ->
  config env1 = config env2.
Proof.
  unfold Notions.consumed. intros H.
  repeat match goal with
         | H : Forall _ (_ :: _) |- _ =>
             let Hx := fresh "Hx" in apply Forall_cons in H as [Hx H]
         end.
  unfold Knexfile.config, Knexfile.development, Knexfile.production,
    Knexfile.buildConnectionConfig, Knexfile.buildPoolConfig, Knexfile.DB_CLIENT.
  repeat match goal with Hx : env1 !! _ = env2 !! _ |- _ => rewrite Hx; clear Hx end.
  reflexivity.
Qed.

(** X3. For a postgres token a non-empty [DATABASE_URL] is the whole
    connection, whatever the host, port, user, password and database
    variables hold; for every other token [DATABASE_URL] is not read. *)
Theorem database_url_precedence (token url : string) (env : Env) :
  url <> "" ->
  (token = "pg" \/ token = "postgresql" ->
   Knexfile.buildConnectionConfig parseInt token (<["DATABASE_URL" := url]> env)
   = Knexfile.ConnString url) /\
  (token <> "pg" -> token <> "postgresql" ->
   Knexfile.buildConnectionConfig parseInt token (<["DATABASE_URL" := url]> env)
   = Knexfile.buildConnectionConfig parseInt token env).
Proof.
  intros Hurl. split.
  - intros [-> | ->]; unfold Knexfile.buildConnectionConfig; cbn [String.eqb orb];
      rewrite lookup_insert_eq; unfold truthy;
      destruct (String.eqb_spec url ""); try contradiction; reflexivity.
  - intros H1 H2. unfold Knexfile.buildConnectionConfig.
    destruct (String.eqb_spec token "pg"); [contradiction|].
    destruct (String.eqb_spec token "postgresql"); [contradiction|].
    cbn [orb]. rewrite !lookup_insert_ne by discriminate. reflexivity.
Qed.

(** The three ways a token can resolve. *)
Lemma token_cases (token : string) :
  (Knexfile.getClientName token = "pg" /\ Knexfile.isSQLite token = false /\
   (token = "pg" \/ token = "postgresql")) \/
  (Knexfile.getClientName token = "mysql2" /\ Knexfile.isSQLite token = false /\
   (token = "mysql" \/ token = "mysql2")) \/
  (Knexfile.getClientName token = "better-sqlite3" /\
   token <> "pg" /\ token <> "postgresql" /\ token <> "mysql" /\ token <> "mysql2").
Proof.
  unfold Knexfile.getClientName, Knexfile.isSQLite.
  destruct (String.eqb_spec token "pg") as [->|H1]; [left; auto|].
  destruct (String.eqb_spec token "postgresql") as [->|H2]; [left; auto|].
  destruct (String.eqb_spec token "mysql") as [->|H3]; [right; left; auto|].
  destruct (String.eqb_spec token "mysql2") as [->|H4]; [right; left; auto|].
  right; right. auto.
Qed.

Lemma connection_file_iff (token : string) (env : Env) :
  (exists f, Knexfile.buildConnectionConfig parseInt token env = Knexfile.ConnFile f)
  <-> Knexfile.getClientName token = "better-sqlite3".
Proof.
  unfold Knexfile.buildConnectionConfig, Knexfile.getClientName.
  destruct (String.eqb token "pg" || String.eqb token "postgresql").
  { destruct (truthy _); (split; [intros [f Hf]|intros Hf]; discriminate). }
  destruct (String.eqb token "mysql" || String.eqb token "mysql2").
  { split; [intros [f Hf]|intros Hf]; discriminate. }
  split; [reflexivity|]. intros _. eexists. reflexivity.
Qed.

(** X4. Every descriptor of [config] is coherent in these respects: its
    client is one of the three client names; its connection is a file
    exactly when the client is the embedded engine; the null-as-default
    flag is only set for the embedded engine, and then the pool is
    either absent or pinned to one connection; a postgres or mysql
    client has the flag off and a pool with both timeouts at 30000. *)
Theorem descriptors_are_coherent (env : Env) (stage : string)
    (d : Knexfile.KnexConfig Number) :
  config env !! stage = Some d ->
  Knexfile.client d ∈ ["better-sqlite3"; "pg"; "mysql2"] /\
  ((exists f, Knexfile.connection d = Knexfile.ConnFile f)
   <-> Knexfile.client d = "better-sqlite3") /\
  (Knexfile.useNullAsDefault d = true ->
   Knexfile.client d = "better-sqlite3" /\
   (Knexfile.pool d = None \/
    Knexfile.pool d = Some (Knexfile.mkPool (num 1) (num 1) None None))) /\
  (Knexfile.client d = "pg" \/ Knexfile.client d = "mysql2" ->
   Knexfile.useNullAsDefault d = false /\
   exists p, Knexfile.pool d = Some p /\
             Knexfile.acquireTimeoutMillis p = Some (num 30000) /\
             Knexfile.idleTimeoutMillis p = Some (num 30000)).
Proof.
  intros Hd.
  assert (Htest : forall P : Knexfile.KnexConfig Number -> Prop,
             P (Knexfile.development num parseInt env) -> P Knexfile.test -> P d).
  { intros P Hdev Ht.
    destruct (config_stages num parseInt env stage d Hd) as [[_ ->]|[[_ ->]|[_ ->]]];
      assumption. }
  apply Htest; clear Htest Hd d stage.
  - cbn [Knexfile.development Knexfile.client Knexfile.connection Knexfile.pool
         Knexfile.useNullAsDefault].
    set (token := Knexfile.DB_CLIENT env).
    split; [|split; [apply connection_file_iff|split]].
    + destruct (token_cases token) as [(-> & _)|[(-> & _)|(-> & _)]];
        set_solver.
    + intros Hflag. unfold Knexfile.isSQLite in Hflag.
      assert (Hpool : Knexfile.buildPoolConfig num parseInt token env
                      = Knexfile.mkPool (num 1) (num 1) None None).
      { unfold Knexfile.buildPoolConfig. rewrite Hflag. reflexivity. }
      split; [|right; rewrite Hpool; reflexivity].
      unfold Knexfile.getClientName.
      apply orb_true_iff in Hflag as [->%String.eqb_eq | ->%String.eqb_eq];
        reflexivity.
    + intros Hclient.
      destruct (token_cases token) as [(_ & Hs & _)|[(_ & Hs & _)|(Hc & _)]].
      * split; [exact Hs|]. unfold Knexfile.buildPoolConfig, Knexfile.isSQLite in *.
        rewrite Hs. eexists. repeat split.
      * split; [exact Hs|]. unfold Knexfile.buildPoolConfig, Knexfile.isSQLite in *.
        rewrite Hs. eexists. repeat split.
      * rewrite Hc in Hclient. destruct Hclient; discriminate.
  - cbn. split; [set_solver|]. split.
    + split; [reflexivity|]. intros _. eexists. reflexivity.
    + split; [intros _; split; [reflexivity|left; reflexivity]|].
      intros [H|H]; discriminate.
Qed.

End ResolverEdges.

(** [config_reads_ten_variables] at work: choosing the production stage
    does not change the descriptors. *)
Lemma config_reads_ten_variables_witness :
  Knexfile.config Reference.num Reference.parseInt (<["DB_CONNECTION" := "production"]> ∅)
  = Knexfile.config Reference.num Reference.parseInt ∅.
Proof.
  apply config_reads_ten_variables.
  unfold Notions.consumed. repeat (apply Forall_cons; split; [reflexivity|]).
  apply Forall_nil_2.
Defined.

(** [database_url_precedence] at work: the connection string wins over a
    host that is set as well. *)
Lemma database_url_precedence_witness :
  Knexfile.buildConnectionConfig Reference.parseInt "pg"
    (<["DATABASE_URL" := "postgresql://app@db.internal:5432/laju"]>
       (<["DB_HOST" := "10.0.0.7"]> ∅))
  = Knexfile.ConnString "postgresql://app@db.internal:5432/laju".
Proof.
  apply (database_url_precedence Reference.parseInt "pg"
           "postgresql://app@db.internal:5432/laju" (<["DB_HOST" := "10.0.0.7"]> ∅)).
  - discriminate.
  - left. reflexivity.
Defined.

(** [descriptors_are_coherent] at work: the production stage of a
    postgres deployment has the null-as-default flag off. *)
Lemma descriptors_are_coherent_witness :
  Knexfile.useNullAsDefault
    (Knexfile.production Reference.num Reference.parseInt Reference.env_pg) = false.
Proof.
  destruct (descriptors_are_coherent Reference.num Reference.parseInt Reference.env_pg
              "production"
              (Knexfile.production Reference.num Reference.parseInt Reference.env_pg))
    as (_ & _ & _ & Hserver).
  - reflexivity.
  - apply Hserver. left. reflexivity.
Defined.

(** * Further properties of the query-builder service *)

Section DBServiceEdges.
Context {Number : Type} (num : Z -> Number) (parseInt : string -> Number).
Context {Knex : Type}.
Variable DBInstance : member (Knexfile.KnexConfig Number) -> outcome Knex.
Variable raw_throws : Knex -> list string -> string -> option Exn.

Local Abbreviation World := (@DBService.World Number).
Local Abbreviation connection := (DBService.connection DBInstance raw_throws).
Local Abbreviation attempted := (DBService.attempted raw_throws).
Local Abbreviation first_failure := (DBService.first_failure raw_throws).

(** X5. [connection(stage)] throws exactly when the constructor does,
    and then nothing has been issued or logged.  Otherwise it returns
    the new instance, and whether the pragma statements are handed to it
    is decided by the client of the stage that [DB_CONNECTION] names
    when [connection] is called, for whichever [stage] is asked;
    [DB_CONNECTION] is read at each call, so setting it changes the
    decision for later calls. *)
Theorem connection_follows_active_stage (stage : string) (w : World) :
  match DBInstance (DBService.descriptor w (Some stage)) with
  | Ok instance =>
      connection stage w
      = ({| DBService.env := DBService.env w;
            DBService.knexfile := DBService.knexfile w;
            DBService.raws :=
              DBService.raws w
                ++ (if DBService.active_is_sqlite w
                    then attempted instance (DBService.raws w) DBService.PRAGMAS
                    else []);
            DBService.warnings :=
              DBService.warnings w
                ++ (if DBService.active_is_sqlite w
                    then DBService.warning_of
                           (first_failure instance (DBService.raws w) DBService.PRAGMAS)
                    else []) |},
         Ok instance)
  | Throw e => connection stage w = (w, Throw e)
  end /\
  forall active : string,
    DBService.active_is_sqlite (DBService.setenv "DB_CONNECTION" active w)
    = Knexfile.is_sqlite_client
        (Knexfile.client_of (DBService.descriptor w (Some active))).
Proof.
  split.
  - rewrite connection_unfold.
    destruct (DBInstance _) as [instance|e]; [|reflexivity].
    destruct (DBService.active_is_sqlite w) eqn:Hcond.
    + rewrite apply_on_sqlite by assumption. reflexivity.
    + rewrite apply_elsewhere by assumption. cbn [fst].
      destruct w as [e k r ws]. cbn. rewrite !app_nil_r. reflexivity.
  - intros active. unfold DBService.active_is_sqlite, DBService.descriptor,
      DBService.setenv. cbn. rewrite lookup_insert_eq. reflexivity.
Qed.

(** When [DB_CONNECTION] names none of the three stages, the condition
    of [applyDatabaseOptimizations] is false. *)
Lemma inactive_without_stage (e : Env) (evs : list DBService.Event) :
  let w := DBService.steps DBInstance raw_throws evs (DBService.boot num parseInt e) in
  render (DBService.env w !! "DB_CONNECTION") ∉ Notions.stages ->
  DBService.active_is_sqlite w = false.
Proof.
  intros w Hstage. unfold DBService.active_is_sqlite, DBService.descriptor, get_opt.
  subst w. rewrite steps_keep_config. cbn [DBService.boot DBService.knexfile].
  unfold JS.get. rewrite config_other.
  - destruct (inherited _); reflexivity.
  - intros Heq. apply Hstage. rewrite Heq. unfold Notions.stages. set_solver.
  - intros Heq. apply Hstage. rewrite Heq. unfold Notions.stages. set_solver.
  - intros Heq. apply Hstage. rewrite Heq. unfold Notions.stages. set_solver.
Qed.

(** X6. In a running process in which [DB_CONNECTION] is unset, or names
    none of the three stages, no connection is ever given a pragma
    statement and no warning is written, whatever stage it is opened for
    and whatever the client of that stage is. *)
Theorem no_pragmas_without_active_stage (e : Env) (evs : list DBService.Event)
    (stage : string) :
  let w := DBService.steps DBInstance raw_throws evs (DBService.boot num parseInt e) in
  render (DBService.env w !! "DB_CONNECTION") ∉ Notions.stages ->
  DBService.raws (fst (connection stage w)) = DBService.raws w /\
  DBService.warnings (fst (connection stage w)) = DBService.warnings w.
Proof.
  intros w Hstage.
  pose proof (inactive_without_stage e evs Hstage) as Hcond. fold w in Hcond.
  rewrite connection_unfold.
  destruct (DBInstance _) as [instance|err]; [|split; reflexivity].
  rewrite apply_elsewhere by assumption. split; reflexivity.
Qed.

(** X7. The two services choose the active stage differently when
    [DB_CONNECTION] is unset or empty: the native service then takes the
    development stage, while the condition of the query-builder service
    is false.  When [DB_CONNECTION] is set to a non-empty name, both
    test the client of the same descriptor. *)
Theorem active_stage_of_both_services (e : Env) :
  let native := SQLite.clientType (Knexfile.config num parseInt e) e in
  let builder := DBService.active_is_sqlite (DBService.boot num parseInt e) in
  if truthy (e !! "DB_CONNECTION")
  then builder = Knexfile.is_sqlite_client native
  else builder = false /\
       native = Some (Knexfile.getClientName (Knexfile.DB_CLIENT e)).
Proof.
  cbn zeta. unfold SQLite.clientType, SQLite.connectionType, or_else,
    DBService.active_is_sqlite, DBService.descriptor, get_opt.
  cbn [DBService.boot DBService.env DBService.knexfile].
  destruct (e !! "DB_CONNECTION") as [s|] eqn:Hs; cbn [truthy].
  - destruct (String.eqb_spec s "") as [->|Hne]; cbn [negb default render].
    + split.
      * unfold JS.get. rewrite config_other by discriminate. reflexivity.
      * unfold JS.get. rewrite config_development. reflexivity.
    + reflexivity.
  - split.
    + unfold JS.get. cbn [render default]. rewrite config_other by discriminate.
      reflexivity.
    + unfold JS.get. cbn [default]. rewrite config_development. reflexivity.
Qed.

End DBServiceEdges.

(** [no_pragmas_without_active_stage] at work: on the defaults, with
    [DB_CONNECTION] unset, the connection for the development stage,
    whose client is the embedded engine, is given no pragma. *)
Lemma no_pragmas_without_active_stage_witness :
  DBService.raws
    (fst (DBService.connection Reference.DBInstance Reference.raw_ok "development"
            (DBService.boot Reference.num Reference.parseInt ∅)))
  = [].
Proof.
  refine (proj1 (no_pragmas_without_active_stage Reference.num Reference.parseInt
                   Reference.DBInstance Reference.raw_ok ∅ [] "development" _)).
  vm_compute. intros H. repeat (inversion H as [|? ? ? H']; clear H; rename H' into H).
Defined.

(** * Further properties of the native service *)

Section NativeServiceEdges.
Context {Number : Type} (num : Z -> Number) (parseInt : string -> Number).
Context {Db Stmt Value Row RunResult : Type}.
Context {driver : SQLite.NativeDriver Db Stmt Value Row RunResult}.

Local Abbreviation W := (SQLite.World Db Stmt).
Local Abbreviation config := (Knexfile.config num parseInt).

(** With a file name at hand, [createSQLiteService] is the walk through
    the driver calls. *)
Lemma createSQLiteService_startup (dbConfig : member (Knexfile.KnexConfig Number))
    (stage filename : string) (w : W) :
  SQLite.filename_of dbConfig = Some filename ->
  SQLite.createSQLiteService dbConfig stage w
  = match Notions.run_all (Notions.startup filename) (SQLite.nativeDb w) with
    | (d, Ok _) =>
        ({| SQLite.nativeDb := d; SQLite.statementCache := ∅;
            SQLite.prepared := SQLite.prepared w; SQLite.console := SQLite.console w |},
         Ok SQLite.RealService)
    | (d, Throw e) => (SQLite.set_db d w, Throw e)
    end.
Proof.
  intros Hf. unfold SQLite.createSQLiteService. rewrite Hf.
  unfold bind, SQLite.on_db, modify, ret, Notions.startup, Notions.run_all.
  destruct (SQLite.db_open filename (SQLite.nativeDb w)) as [d [[]|e]];
    cbn; [|reflexivity].
  repeat match goal with
         | |- context [SQLite.db_pragma ?text ?d'] =>
             destruct (SQLite.db_pragma text d') as [? [[]|?]]; cbn; try reflexivity
         end.
Qed.

(** The file of the active stage, when its client is the embedded engine. *)
Lemma active_stage_file (env : Env) :
  Knexfile.is_sqlite_client (SQLite.clientType (config env) env) = true ->
  SQLite.filename_of (JS.get (config env) (SQLite.connectionType env))
  = Some (if String.eqb (SQLite.connectionType env) "test"
          then "./data/test.sqlite3"
          else or_else (env !! "DB_FILENAME") "./data/dev.sqlite3").
Proof.
  unfold SQLite.clientType, JS.get.
  destruct (config env !! SQLite.connectionType env) as [d|] eqn:Hd.
  2: { destruct (inherited _); discriminate. }
  destruct (config_stages num parseInt env _ d Hd) as [[-> ->]|[[-> ->]|[-> ->]]];
    cbn [Knexfile.client_of Knexfile.client Knexfile.development Knexfile.production
         SQLite.filename_of Knexfile.connection String.eqb Ascii.eqb Bool.eqb];
    try reflexivity.
  all: intros Hclient;
    destruct (token_cases (Knexfile.DB_CLIENT env))
      as [(Hc & _)|[(Hc & _)|(Hc & H1 & H2 & H3 & H4)]];
    try (rewrite Hc in Hclient; discriminate Hclient);
    unfold Knexfile.buildConnectionConfig;
    destruct (String.eqb_spec (Knexfile.DB_CLIENT env) "pg"); try contradiction;
    destruct (String.eqb_spec (Knexfile.DB_CLIENT env) "postgresql"); try contradiction;
    destruct (String.eqb_spec (Knexfile.DB_CLIENT env) "mysql"); try contradiction;
    destruct (String.eqb_spec (Knexfile.DB_CLIENT env) "mysql2"); try contradiction;
    reflexivity.
Qed.

(** X8. When the client of the active stage is the embedded engine,
    loading the native service never fails on the shape of the
    configuration: it opens the file of that stage (the fixed test file
    for the test stage, otherwise [DB_FILENAME] or ./data/dev.sqlite3)
    and applies the four pragmas in order.  The first of these driver
    calls that throws aborts the load with its exception, uncaught and
    unlogged; when all succeed the service is the real one, with an
    empty statement cache. *)
Theorem native_service_startup (env : Env) (w0 : W) :
  Knexfile.is_sqlite_client (SQLite.clientType (config env) env) = true ->
  let filename := if String.eqb (SQLite.connectionType env) "test"
                  then "./data/test.sqlite3"
                  else or_else (env !! "DB_FILENAME") "./data/dev.sqlite3" in
  SQLite.SQLiteService (config env) env w0
  = match Notions.run_all (Notions.startup filename) (SQLite.nativeDb w0) with
    | (d, Ok _) =>
        ({| SQLite.nativeDb := d; SQLite.statementCache := ∅;
            SQLite.prepared := SQLite.prepared w0; SQLite.console := SQLite.console w0 |},
         Ok SQLite.RealService)
    | (d, Throw e) => (SQLite.set_db d w0, Throw e)
    end.
Proof.
  intros Hclient filename. unfold SQLite.SQLiteService. rewrite Hclient.
  apply createSQLiteService_startup, active_stage_file. exact Hclient.
Qed.

(** What a query writes to the console. *)
Lemma query_console {A : Type} (method : string)
    (op : Stmt -> list Value -> Db -> Db * outcome A)
    (sql : string) (params : SQLite.Params Value) (w : W) :
  match SQLite.query method op sql params w with
  | (w', Ok _) => SQLite.console w' = SQLite.console w
  | (w', Throw e) =>
      SQLite.console w'
      = (SQLite.console w ++ [SQLite.LogError ("SQLite " +:+ method +:+ " error:") e])%list
  end.
Proof.
  unfold SQLite.query, SQLite.statement, try_catch, bind, gets. cbv beta iota.
  destruct (JS.get (SQLite.statementCache w) sql) as [s| |]; cbn.
  - unfold SQLite.on_db. destruct (op s _ (SQLite.nativeDb w)) as [d [a|e]];
      reflexivity.
  - reflexivity.
  - destruct (SQLite.db_prepare sql (SQLite.nativeDb w)) as [s|e]; cbn; [|reflexivity].
    unfold SQLite.on_db. cbn.
    destruct (op s _ (SQLite.nativeDb w)) as [d [a|e]]; reflexivity.
Qed.

(** X9. Each of [get], [all] and [run] of the real service writes one
    line to the console, with the exception it throws, exactly when it
    throws; a call that returns writes nothing. *)
Theorem errors_are_logged_once (sql : string) (params : SQLite.Params Value) (w : W) :
  match SQLite.get SQLite.RealService sql params w with
  | (w', Ok _) => SQLite.console w' = SQLite.console w
  | (w', Throw e) =>
      SQLite.console w' = (SQLite.console w ++ [SQLite.LogError "SQLite get error:" e])%list
  end /\
  match SQLite.all SQLite.RealService sql params w with
  | (w', Ok _) => SQLite.console w' = SQLite.console w
  | (w', Throw e) =>
      SQLite.console w' = (SQLite.console w ++ [SQLite.LogError "SQLite all error:" e])%list
  end /\
  match SQLite.run SQLite.RealService sql params w with
  | (w', Ok _) => SQLite.console w' = SQLite.console w
  | (w', Throw e) =>
      SQLite.console w' = (SQLite.console w ++ [SQLite.LogError "SQLite run error:" e])%list
  end.
Proof.
  split; [|split].
  - exact (query_console "get" SQLite.stmt_get sql params w).
  - exact (query_console "all" SQLite.stmt_all sql params w).
  - exact (query_console "run" SQLite.stmt_run sql params w).
Qed.

End NativeServiceEdges.

Section NativeServiceAvailability.
Context {Number : Type} (num : Z -> Number) (parseInt : string -> Number).
Context {Db Stmt Value Row RunResult : Type}.
Context {driver : SQLite.NativeDriver Db Stmt Value Row RunResult}.

Local Abbreviation W := (SQLite.World Db Stmt).
Local Abbreviation config := (Knexfile.config num parseInt).

(** C1. Let the active stage be the value of [DB_CONNECTION], or
    development when that is unset or empty, and let its client be the
    client of that stage's descriptor (none when there is no such
    stage).  When the service module has been loaded, [isAvailable] is
    true exactly when that client is "better-sqlite3" or "sqlite3", and
    then the driver has opened the stage's file and taken the four
    pragmas.  When it is false, every call of [get], [all], [run] and
    [transaction] raises at once, leaving the state alone, with the
    fixed message that names the client and points to the DB service,
    and [getDatabase] returns null.  Loading fails only for an embedded
    client, with the exception of the first driver call that throws. *)
Theorem native_service_availability (env : Env) (w0 : W) :
  let stage :=
    match env !! "DB_CONNECTION" with
    | Some s => if String.eqb s "" then "development" else s
    | None => "development"
    end in
  let client := Knexfile.client <$> (config env !! stage) in
  let embedded :=
    match client with
    | Some c => String.eqb c "better-sqlite3" || String.eqb c "sqlite3"
    | None => false
    end in
  let msg := "SQLite service is not available with " +:+ default "undefined" client
             +:+ " client. Use DB service instead." in
  let filename :=
    if String.eqb stage "test" then "./data/test.sqlite3"
    else match env !! "DB_FILENAME" with
         | Some f => if String.eqb f "" then "./data/dev.sqlite3" else f
         | None => "./data/dev.sqlite3"
         end in
  match SQLite.SQLiteService (config env) env w0 with
  | (_, Ok svc) =>
      SQLite.isAvailable svc = embedded /\
      (embedded = true ->
       exists d, Notions.run_all (Notions.startup filename) (SQLite.nativeDb w0)
                 = (d, Ok tt)) /\
      (embedded = false ->
       forall (sql : string) (params : SQLite.Params Value) (w : W)
              (T : Type) (fn : SQLite.SQLiteServiceType -> M W T),
         SQLite.get svc sql params w = (w, Throw (Error msg)) /\
         SQLite.all svc sql params w = (w, Throw (Error msg)) /\
         SQLite.run svc sql params w = (w, Throw (Error msg)) /\
         SQLite.transaction svc fn w = (w, Throw (Error msg)) /\
         SQLite.getDatabase svc w = (w, Ok None))
  | (_, Throw e) =>
      embedded = true /\
      snd (Notions.run_all (Notions.startup filename) (SQLite.nativeDb w0)) = Throw e
  end.
Proof.
  intros stage client embedded msg filename.
  assert (Hstage : SQLite.connectionType env = stage).
  { unfold SQLite.connectionType, or_else, truthy, stage.
    destruct (env !! "DB_CONNECTION") as [s|]; [|reflexivity].
    destruct (String.eqb s ""); reflexivity. }
  assert (Hclient : SQLite.clientType (config env) env = client).
  { unfold SQLite.clientType, JS.get, client. rewrite Hstage.
    destruct (config env !! stage); [reflexivity|].
    destruct (inherited stage); reflexivity. }
  assert (Hfile : (if String.eqb (SQLite.connectionType env) "test"
                   then "./data/test.sqlite3"
                   else or_else (env !! "DB_FILENAME") "./data/dev.sqlite3")
                  = filename).
  { rewrite Hstage. unfold filename, or_else, truthy.
    destruct (String.eqb stage "test"); [reflexivity|].
    destruct (env !! "DB_FILENAME") as [f|]; [|reflexivity].
    destruct (String.eqb f ""); reflexivity. }
  assert (Hcond : Knexfile.is_sqlite_client (SQLite.clientType (config env) env)
                  = embedded).
  { rewrite Hclient. reflexivity. }
  unfold SQLite.SQLiteService. destruct embedded eqn:Hemb.
  - rewrite Hcond.
    rewrite (createSQLiteService_startup _ _ _ w0
               (active_stage_file num parseInt env Hcond)).
    rewrite Hfile.
    destruct (Notions.run_all (Notions.startup filename) (SQLite.nativeDb w0))
      as [d [[]|e]]; cbn [fst snd].
    + split; [reflexivity|]. split; [intros _; exists d; reflexivity|discriminate].
    + split; reflexivity.
  - rewrite Hcond, Hclient. cbn.
    split; [reflexivity|]. split; [discriminate|].
    intros _ sql params w T fn. repeat split; reflexivity.
Qed.

End NativeServiceAvailability.

Section StatementCacheInvariants.
Context {Db Stmt Value Row RunResult : Type}.
Context {driver : SQLite.NativeDriver Db Stmt Value Row RunResult}.

Local Abbreviation W := (SQLite.World Db Stmt).
Local Abbreviation perform :=
  (SQLite.perform (Row:=Row) (RunResult:=RunResult) SQLite.RealService).
Local Abbreviation perform_all :=
  (SQLite.perform_all (Row:=Row) (RunResult:=RunResult) SQLite.RealService).

(** A call either leaves the cache as it is or adds one entry, under
    its own text, which is then neither cached nor an inherited name. *)
Lemma perform_cache_step (c : SQLite.Call Value) (w : W) :
  SQLite.statementCache (perform c w) = SQLite.statementCache w \/
  exists s, SQLite.statementCache (perform c w)
            = <[SQLite.call_sql c := s]> (SQLite.statementCache w) /\
            SQLite.statementCache w !! SQLite.call_sql c = None /\
            inherited (SQLite.call_sql c) = false /\
            SQLite.prepared (perform c w)
            = (SQLite.prepared w ++ [SQLite.call_sql c])%list.
Proof.
  pose proof (perform_effect c w) as H. cbn zeta in H. unfold JS.get in H.
  destruct (SQLite.statementCache w !! SQLite.call_sql c) as [s|] eqn:Hs.
  { left. apply H. }
  destruct (inherited (SQLite.call_sql c)) eqn:Hk.
  { left. apply H. }
  destruct (SQLite.db_prepare (SQLite.call_sql c) (SQLite.nativeDb w)) as [s|e].
  - right. exists s. destruct H as [H1 H2]. auto.
  - left. apply H.
Qed.

(** The compile log of a call: unchanged, or extended by its text. *)
Lemma perform_log_step (c : SQLite.Call Value) (w : W) :
  SQLite.prepared (perform c w) = SQLite.prepared w \/
  SQLite.prepared (perform c w) = (SQLite.prepared w ++ [SQLite.call_sql c])%list.
Proof.
  pose proof (perform_effect c w) as H. cbn zeta in H.
  destruct (JS.get (SQLite.statementCache w) (SQLite.call_sql c));
    try (left; apply H).
  destruct (SQLite.db_prepare (SQLite.call_sql c) (SQLite.nativeDb w));
    right; apply H.
Qed.

Lemma no_inherited_entry_step (c : SQLite.Call Value) (w : W) :
  Notions.no_inherited_entry w -> Notions.no_inherited_entry (perform c w).
Proof.
  intros Hinv k Hk.
  destruct (perform_cache_step c w) as [->|(s & -> & _ & Hc & _)]; [auto|].
  rewrite lookup_insert_ne by congruence. auto.
Qed.

Lemma no_inherited_entry_steps (cs : list (SQLite.Call Value)) (w : W) :
  Notions.no_inherited_entry w -> Notions.no_inherited_entry (perform_all cs w).
Proof.
  revert w. induction cs as [|c cs IH]; intros w Hinv; [exact Hinv|].
  cbn. apply IH, no_inherited_entry_step, Hinv.
Qed.

(** A query whose text reads an inherited member. *)
Lemma query_inherited {A : Type} (method : string)
    (op : Stmt -> list Value -> Db -> Db * outcome A)
    (sql : string) (params : SQLite.Params Value) (w : W) :
  SQLite.statementCache w !! sql = None -> inherited sql = true ->
  SQLite.query method op sql params w
  = ({| SQLite.nativeDb := SQLite.nativeDb w;
        SQLite.statementCache := SQLite.statementCache w;
        SQLite.prepared := SQLite.prepared w;
        SQLite.console :=
          SQLite.console w
            ++ [SQLite.LogError ("SQLite " +:+ method +:+ " error:")
                  (TypeError ("stmt." +:+ method +:+ " is not a function"))] |},
     Throw (TypeError ("stmt." +:+ method +:+ " is not a function"))).
Proof.
  intros Hnone Hk.
  unfold SQLite.query, SQLite.statement, try_catch, bind, gets. cbv beta iota.
  rewrite (get_inherited _ _ Hnone Hk). reflexivity.
Qed.

(** X10. From a cache without entries under inherited names (the empty
    cache of a fresh service is one), and after any calls of [get],
    [all] and [run]: a call whose SQL text is the name of a member every
    object inherits ("constructor", "toString", ...) never reaches the
    driver.  It throws the type error of calling a non-statement, logs
    it, and leaves the database, the cache and the compile log as they
    were. *)
Theorem inherited_text_never_reaches_driver (cs : list (SQLite.Call Value))
    (sql : string) (params : SQLite.Params Value) (w0 : W) :
  Notions.no_inherited_entry w0 ->
  inherited sql = true ->
  let w := perform_all cs w0 in
  let after (method : string) : W :=
    {| SQLite.nativeDb := SQLite.nativeDb w;
       SQLite.statementCache := SQLite.statementCache w;
       SQLite.prepared := SQLite.prepared w;
       SQLite.console :=
         SQLite.console w
           ++ [SQLite.LogError ("SQLite " +:+ method +:+ " error:")
                 (TypeError ("stmt." +:+ method +:+ " is not a function"))] |} in
  SQLite.get SQLite.RealService sql params w
  = (after "get", Throw (TypeError "stmt.get is not a function")) /\
  SQLite.all SQLite.RealService sql params w
  = (after "all", Throw (TypeError "stmt.all is not a function")) /\
  SQLite.run SQLite.RealService sql params w
  = (after "run", Throw (TypeError "stmt.run is not a function")).
Proof.
  intros Hinv Hk w after.
  assert (Hnone : SQLite.statementCache w !! sql = None).
  { apply (no_inherited_entry_steps cs w0 Hinv). exact Hk. }
  unfold SQLite.get, SQLite.all, SQLite.run.
  repeat split; apply query_inherited; assumption.
Qed.

Lemma cache_follows_step (c : SQLite.Call Value) (w : W) :
  Notions.cached_were_compiled w -> Notions.cached_were_compiled (perform c w).
Proof.
  intros Hinv k Hsome.
  destruct (perform_cache_step c w) as [Heq|(s & Heq & _ & _ & Hlog)].
  - rewrite Heq in Hsome.
    destruct (perform_log_step c w) as [->| ->]; [auto|].
    apply elem_of_app. left. auto.
  - rewrite Heq in Hsome. rewrite Hlog. apply elem_of_app.
    destruct (decide (SQLite.call_sql c = k)) as [->|Hne].
    + right. apply list_elem_of_here.
    + left. rewrite lookup_insert_ne in Hsome by assumption. auto.
Qed.

(** X11. Any sequence of [get], [all] and [run] calls keeps these facts
    about the statement cache: every cached text has been handed to the
    compile step; the compile log only grows, and only by texts of the
    calls made; and the entry of a text that none of the calls uses is
    untouched. *)
Theorem cache_follows_calls (cs : list (SQLite.Call Value)) (w : W) :
  Notions.cached_were_compiled w ->
  let w' := perform_all cs w in
  Notions.cached_were_compiled w' /\
  (exists added, SQLite.prepared w' = (SQLite.prepared w ++ added)%list /\
                 added ⊆ map SQLite.call_sql cs) /\
  (forall k, k ∉ map SQLite.call_sql cs ->
             SQLite.statementCache w' !! k = SQLite.statementCache w !! k).
Proof.
  revert w. induction cs as [|c cs IH]; intros w Hinv.
  { cbn. split; [exact Hinv|]. split; [|reflexivity].
    exists []. rewrite app_nil_r. split; [reflexivity|]. apply list_subseteq_nil. }
  cbn zeta. cbn [SQLite.perform_all fold_left].
  destruct (IH (perform c w) (cache_follows_step c w Hinv))
    as (Hinv' & (added & Hlog & Hadded) & Hframe).
  unfold SQLite.perform_all in *. split; [exact Hinv'|]. split.
  - destruct (perform_log_step c w) as [Hc|Hc]; rewrite Hc in Hlog.
    + exists added. split; [exact Hlog|].
      intros x Hx. cbn. apply list_elem_of_further, Hadded, Hx.
    + exists (SQLite.call_sql c :: added). split.
      * rewrite Hlog, <- app_assoc. reflexivity.
      * intros x Hx. cbn. apply elem_of_cons in Hx as [->|Hx].
        -- apply list_elem_of_here.
        -- apply list_elem_of_further, Hadded, Hx.
  - intros k Hk. cbn in Hk. rewrite Hframe.
    + destruct (perform_cache_step c w) as [->|(s & -> & _)]; [reflexivity|].
      apply lookup_insert_ne. intros Heq. apply Hk. rewrite Heq.
      apply list_elem_of_here.
    + intros Hin. apply Hk. apply list_elem_of_further, Hin.
Qed.

End StatementCacheInvariants.

(** [inherited_text_never_reaches_driver] at work on the reference
    driver: after a first query, the text "toString" compiles nothing. *)
Lemma inherited_text_never_reaches_driver_witness :
  let w := SQLite.perform_all SQLite.RealService
             [SQLite.mkCall SQLite.OpGet "SELECT v FROM t" SQLite.PMissing]
             Reference.fresh in
  snd (SQLite.all SQLite.RealService "toString" SQLite.PMissing w)
  = Throw (TypeError "stmt.all is not a function") /\
  SQLite.prepared (fst (SQLite.all SQLite.RealService "toString" SQLite.PMissing w))
  = ["SELECT v FROM t"].
Proof.
  destruct (inherited_text_never_reaches_driver
              [SQLite.mkCall SQLite.OpGet "SELECT v FROM t" SQLite.PMissing]
              "toString" SQLite.PMissing Reference.fresh)
    as (_ & Hall & _).
  - intros k _. apply lookup_empty.
  - reflexivity.
  - cbn zeta. rewrite Hall. split; reflexivity.
Defined.

(** [cache_follows_calls] at work on the reference driver: after a
    query and an insertion, the text of an unused statement is not
    cached. *)
Lemma cache_follows_calls_witness :
  SQLite.statementCache
    (SQLite.perform_all SQLite.RealService
       [SQLite.mkCall SQLite.OpGet "SELECT v FROM t" SQLite.PMissing;
        SQLite.mkCall SQLite.OpRun "INSERT INTO t VALUES (?)" (SQLite.PArray [3])]
       Reference.fresh) !! "DELETE FROM t"
  = None.
Proof.
  destruct (cache_follows_calls
              [SQLite.mkCall SQLite.OpGet "SELECT v FROM t" SQLite.PMissing;
               SQLite.mkCall SQLite.OpRun "INSERT INTO t VALUES (?)" (SQLite.PArray [3])]
              Reference.fresh)
    as (_ & _ & Hframe).
  - intros k [s Hs]. unfold Reference.fresh in Hs.
    cbn [SQLite.statementCache] in Hs. rewrite lookup_empty in Hs. discriminate Hs.
  - rewrite Hframe; [apply lookup_empty|].
    cbn. intros H. repeat (inversion H as [|? ? ? H']; clear H; rename H' into H).
Defined.

(** * Properties of the page resolver *)

Lemma string_length_append (s t : string) :
  String.length (s +:+ t) = (String.length s + String.length t)%nat.
Proof.
  induction s as [|c s IH]; [reflexivity|].
  change (S (String.length (s +:+ t)) = S (String.length s + String.length t)).
  rewrite IH. reflexivity.
Qed.

(** Appending the same suffix is injective. *)
Lemma append_cancel_r (t s1 s2 : string) : s1 +:+ t = s2 +:+ t -> s1 = s2.
Proof.
  revert s2. induction s1 as [|c1 s1 IH]; intros [|c2 s2] H.
  - reflexivity.
  - change (t = String c2 (s2 +:+ t)) in H.
    apply (f_equal String.length) in H. cbn [String.length] in H.
    rewrite string_length_append in H. lia.
  - change (String c1 (s1 +:+ t) = t) in H.
    apply (f_equal String.length) in H. cbn [String.length] in H.
    rewrite string_length_append in H. lia.
  - change (String c1 (s1 +:+ t) = String c2 (s2 +:+ t)) in H.
    injection H as -> H. f_equal. apply IH. exact H.
Qed.

(** X13. The path looked up for a component name is never the name of a
    member every object inherits, whatever the name is, and two
    different names never give the same path. *)
Theorem page_paths_are_proper (name1 name2 : string) :
  inherited (Inertia.pagePath name1) = false /\
  (Inertia.pagePath name1 = Inertia.pagePath name2 -> name1 = name2).
Proof.
  split; [reflexivity|].
  unfold Inertia.pagePath. intros H.
  apply (inj (String.app "./Pages/")) in H.
  apply append_cancel_r in H. exact H.
Qed.

Section ResolveFacts.
Context {Page : Type}.
Variable DEV : bool.

Local Abbreviation resolve := (Inertia.resolve (Page:=Page) DEV).

(** X12. [resolve(name)] returns a page exactly when the path of [name]
    is a key of [pages] whose loader yields that page, and then it
    writes nothing.  Otherwise it throws: for a missing key the error
    "Page not found: <name>" after three console lines, for a failing
    loader the loader's own exception after one console line.  The
    document body is replaced only in development mode. *)
Theorem resolve_outcomes (pages : list (string * outcome Page)) (name : string)
    (b : Inertia.Browser) :
  (forall page,
      snd (resolve pages name b) = Ok page
      <-> Inertia.own pages (Inertia.pagePath name) = Some (Ok page)) /\
  (forall page, snd (resolve pages name b) = Ok page -> fst (resolve pages name b) = b) /\
  (Inertia.own pages (Inertia.pagePath name) = None ->
   snd (resolve pages name b) = Throw (Error ("Page not found: " +:+ name)) /\
   Inertia.console (fst (resolve pages name b))
   = (Inertia.console b
        ++ [ Inertia.Line ("[Inertia] Page not found: " +:+ name);
             Inertia.Line ("[Inertia] Looking for: " +:+ Inertia.pagePath name);
             Inertia.LineKeys "[Inertia] Available pages:" (map fst pages) ])%list) /\
  (forall e, Inertia.own pages (Inertia.pagePath name) = Some (Throw e) ->
             snd (resolve pages name b) = Throw e /\
             Inertia.console (fst (resolve pages name b))
             = (Inertia.console b
                  ++ [Inertia.LineError ("[Inertia] Error loading page: " +:+ name) e])%list) /\
  Inertia.body (fst (resolve pages name b))
  = match snd (resolve pages name b) with
    | Ok _ => Inertia.body b
    | Throw _ =>
        if DEV
        then match Inertia.own pages (Inertia.pagePath name) with
             | None => Some (Inertia.NotFoundPanel name (Inertia.pagePath name)
                               (map fst pages))
             | Some (Throw e) => Some (Inertia.LoadErrorPanel name e)
             | Some (Ok _) => Inertia.body b
             end
        else Inertia.body b
    end.
Proof.
  unfold Inertia.resolve.
  destruct (Inertia.own pages (Inertia.pagePath name)) as [[page|e]|] eqn:Hown.
  - cbn. repeat split; try congruence; try discriminate.
  - destruct DEV; cbn.
    all: repeat split; try congruence; try discriminate.
    all: intros e' He'; injection He' as ->; split; reflexivity.
  - destruct DEV; cbn.
    all: repeat split; try congruence; try discriminate.
    all: rewrite <- !app_assoc; reflexivity.
Qed.

End ResolveFacts.

(** [native_service_startup] at work on the reference driver: on the
    defaults the native service loads as the real service. *)
Lemma native_service_startup_witness :
  snd (SQLite.SQLiteService (Knexfile.config Reference.num Reference.parseInt ∅) ∅
         Reference.fresh)
  = Ok SQLite.RealService.
Proof.
  rewrite (native_service_startup Reference.num Reference.parseInt ∅ Reference.fresh).
  - reflexivity.
  - reflexivity.
Defined.
